(** * Calendar page renderer of the DA14585 e-paper firmware

    A shallow embedding of [calendar_display.c] and the properties of its
    layout arithmetic.  The canvas is the log of the drawing primitives
    issued against it; undefined behaviour of the C source (an array access
    outside its bounds, a [sprintf] past the end of its buffer) is an
    explicit outcome, and so is a loop that does not stop. *)

From Stdlib Require Import ZArith List Bool Lia String Ascii.
From Stdlib Require Import DecimalString.
Import ListNotations.

Local Open Scope string_scope.
Local Open Scope list_scope.
Local Open Scope Z_scope.

(** ** Machine integers *)

(** Conversion to [uint8_t] and [uint16_t]: reduction modulo 2^8 and 2^16.
    Arithmetic itself is done in [int] after integer promotion, so only
    assignments to (and returns of) the narrow types wrap. *)
Definition wrap8 (z : Z) : Z := z mod 256.
Definition wrap16 (z : Z) : Z := z mod 65536.

Definition in_uint8 (z : Z) : Prop := 0 <= z < 256.
Definition in_uint16 (z : Z) : Prop := 0 <= z < 65536.

(** ** Drawing primitives *)

Inductive color := BLACK | WHITE.
Inductive font := EPD_ASCII_7X12 | EPD_ASCII_11X16 | EPD_FontUTF8_16x16.
Inductive dot_pixel := DOT_PIXEL_1X1.
Inductive line_style := LINE_STYLE_SOLID.
Inductive draw_fill := DRAW_FILL_FULL.

(** One constructor per primitive of the graphics library, carrying the
    values of the argument expressions in the order of the C call.  The wide
    font of [EPD_DrawUTF8] is [None] where the source passes [0]. *)
Inductive draw_cmd :=
| Paint_Clear (c : color)
| Paint_DrawLine (x0 y0 x1 y1 : Z) (c : color) (w : dot_pixel) (s : line_style)
| Paint_DrawRectangle (x0 y0 x1 y1 : Z) (c : color) (w : dot_pixel) (f : draw_fill)
| EPD_DrawUTF8 (x y gap : Z) (str : string) (ascii_font : font)
               (utf8_font : option font) (fg bg : color).

Definition canvas := list draw_cmd.

(** ** Outcomes and the rendering monad *)

Inductive fault := OutOfBounds | BufferOverflow.

Inductive outcome (A : Type) :=
| Done (a : A) (c : canvas)
| Undefined (f : fault)
| OutOfFuel.
Arguments Done {A} a c.
Arguments Undefined {A} f.
Arguments OutOfFuel {A}.

Definition M (A : Type) : Type := canvas -> outcome A.

Definition ret {A} (a : A) : M A := fun c => Done a c.

Definition bind {A B} (m : M A) (k : A -> M B) : M B :=
  fun c => match m c with
           | Done a c' => k a c'
           | Undefined f => Undefined f
           | OutOfFuel => OutOfFuel
           end.

Definition emit (d : draw_cmd) : M unit := fun c => Done tt (c ++ [d]).
Definition undefined {A} (f : fault) : M A := fun _ => Undefined f.
Definition out_of_fuel {A} : M A := fun _ => OutOfFuel.

Declare Scope render_scope.
Delimit Scope render_scope with render.
Notation "x <- m ;; k" := (bind m (fun x => k))
  (at level 100, m at next level, right associativity) : render_scope.
Notation "m ;; k" := (bind m (fun _ => k))
  (at level 100, right associativity) : render_scope.
Local Open Scope render_scope.

(** A computation emits [cmds] when, from every canvas, it finishes and has
    appended exactly [cmds] to the log. *)
Definition emits {A} (m : M A) (a : A) (cmds : list draw_cmd) : Prop :=
  forall c, m c = Done a (c ++ cmds).

(** The commands a computation appends to an empty log. *)
Definition emitted {A} (m : M A) : list draw_cmd :=
  match m [] with
  | Done _ c => c
  | _ => []
  end.

(** ** Arrays and [sprintf] *)

(** Indexing a C array of known length with an [int] index. *)
Definition array_get {A} (a : list A) (i : Z) : option A :=
  if i <? 0 then None else nth_error a (Z.to_nat i).

(** The conversions [%d] and [%02d] of [sprintf]. *)
Definition fmt_d (z : Z) : string := NilZero.string_of_int (Z.to_int z).

Definition fmt_02d (z : Z) : string :=
  let s := fmt_d z in
  if (String.length s <? 2)%nat then ("0" ++ s)%string else s.

(** [sprintf] into a [char] buffer of [size] bytes: the text and its
    terminating NUL have to fit. *)
Definition sprintf (size : nat) (text : string) : M string :=
  if (String.length text + 1 <=? size)%nat then ret text
  else undefined BufferOverflow.

(** ** Constant tables *)

Definition days_in_month : list (list Z) :=
  [ [31; 28; 31; 30; 31; 30; 31; 31; 30; 31; 30; 31];
    [31; 29; 31; 30; 31; 30; 31; 31; 30; 31; 30; 31] ].

Definition week_names_cn : list string :=
  ["日"; "一"; "二"; "三"; "四"; "五"; "六"].

(** The element [days_in_month[leap][idx]], if both indices are in bounds. *)
Definition table_entry (leap idx : Z) : option Z :=
  match array_get days_in_month leap with
  | Some row => array_get row idx
  | None => None
  end.

(** Broken-down time as filled in by [transformTime]. *)
Record tm_t := mk_tm {
  tm_year : Z;
  tm_mon : Z;
  tm_mday : Z;
  tm_hour : Z;
  tm_min : Z
}.

(** ** Loops over a [uint8_t] counter *)

(** [for (uint8_t i = i0; cond(i); i++) s = body(i, s);] where [s] stands for
    the local variables the body updates.  The increment wraps, so the loop
    need not stop: [fuel] bounds the number of tests of the condition. *)
Fixpoint for_uint8 {S : Type} (fuel : nat) (cond : Z -> bool)
    (body : Z -> S -> M S) (i : Z) (s : S) : M S :=
  match fuel with
  | O => out_of_fuel
  | Datatypes.S fuel' =>
      if cond i then
        s' <- body i s;;
        for_uint8 fuel' cond body (wrap8 (i + 1)) s'
      else ret s
  end.

(** Reading an array element inside a rendering step. *)
Definition array_read {A} (a : list A) (i : Z) : M A :=
  match array_get a i with
  | Some v => ret v
  | None => undefined OutOfBounds
  end.

Definition value_of {A} (o : option A) : M A :=
  match o with
  | Some v => ret v
  | None => undefined OutOfBounds
  end.

(** ** The renderer *)

(** The column index of the table lookup: [month - 1], computed in [int]
    after the promotion of the [uint8_t] operand. *)
Definition month_index (month : Z) : Z := month - 1.

Section Renderer.

(** Collaborators declared in [etime.h]. *)
Variable is_leap : Z -> Z.
Variable day_of_week_get : Z -> Z -> Z -> Z.
Variable transformTime : Z -> tm_t.
Variable YEAR0 : Z.

Definition get_first_day_of_month (year month : Z) : Z :=
  wrap8 (day_of_week_get month 1 year).

Definition get_days_in_month (year month : Z) : option Z :=
  let leap := wrap8 (is_leap year) in
  table_entry leap (month_index month).

Definition draw_calendar_title (year month : Z) : M unit :=
  title_buf <- sprintf 20 (fmt_d year ++ "年" ++ fmt_d month ++ "月")%string;;
  emit (EPD_DrawUTF8 50 2 1 title_buf EPD_ASCII_11X16
          (Some EPD_FontUTF8_16x16) BLACK WHITE).

Definition draw_week_header (fuel : nat) : M unit :=
  let x_start := 10 in
  let y_pos := 25 in
  let cell_width := 28 in
  for_uint8 fuel (fun i => i <? 7)
    (fun i _ =>
       let x_pos := wrap8 (x_start + i * cell_width) in
       name <- array_read week_names_cn i;;
       emit (EPD_DrawUTF8 (x_pos + 8) y_pos 0 name EPD_ASCII_7X12
               (Some EPD_FontUTF8_16x16) BLACK WHITE))
    0 tt.

Definition draw_calendar_grid (fuel : nat) : M unit :=
  let x_start := 10 in
  let y_start := 40 in
  let cell_width := 28 in
  let cell_height := 12 in
  let grid_width := wrap8 (7 * cell_width) in
  let grid_height := wrap8 (6 * cell_height) in
  for_uint8 fuel (fun i => i <=? 6)
    (fun i _ =>
       let y := wrap8 (y_start + i * cell_height) in
       emit (Paint_DrawLine x_start y (x_start + grid_width) y
               BLACK DOT_PIXEL_1X1 LINE_STYLE_SOLID))
    0 tt;;
  for_uint8 fuel (fun i => i <=? 7)
    (fun i _ =>
       let x := wrap8 (x_start + i * cell_width) in
       emit (Paint_DrawLine x y_start x (y_start + grid_height)
               BLACK DOT_PIXEL_1X1 LINE_STYLE_SOLID))
    0 tt.

(** The cursor update at the end of the body of the date loop. *)
Definition advance (cursor : Z * Z) : Z * Z :=
  let '(row, col) := cursor in
  let col := wrap8 (col + 1) in
  if 7 <=? col then (wrap8 (row + 1), 0) else (row, col).

(** One iteration of the date loop at cursor [(row, col)]. *)
Definition dates_body (current_day day : Z) (cursor : Z * Z) : M (Z * Z) :=
  let x_start := 10 in
  let y_start := 40 in
  let cell_width := 28 in
  let cell_height := 12 in
  let '(row, col) := cursor in
  let x_pos := wrap8 (x_start + col * cell_width + 8) in
  let y_pos := wrap8 (y_start + row * cell_height + 2) in
  day_buf <- sprintf 3 (fmt_d day);;
  (if day =? current_day then
     emit (Paint_DrawRectangle
             (x_start + col * cell_width + 1)
             (y_start + row * cell_height + 1)
             (x_start + (col + 1) * cell_width - 1)
             (y_start + (row + 1) * cell_height - 1)
             BLACK DOT_PIXEL_1X1 DRAW_FILL_FULL);;
     emit (EPD_DrawUTF8 x_pos y_pos 0 day_buf EPD_ASCII_7X12 None
             WHITE BLACK)
   else
     emit (EPD_DrawUTF8 x_pos y_pos 0 day_buf EPD_ASCII_7X12 None
             BLACK WHITE));;
  ret (advance cursor).

Definition draw_calendar_dates (fuel : nat) (year month current_day : Z)
  : M unit :=
  let first_day := get_first_day_of_month year month in
  days_count <- value_of (get_days_in_month year month);;
  let row := 0 in
  let col := first_day in
  for_uint8 fuel (fun day => day <=? days_count)
    (dates_body current_day) 1 (row, col);;
  ret tt.

Definition draw_calendar_page (fuel : nat) (unix_time : Z) : M unit :=
  let tm := transformTime unix_time in
  let year := wrap16 (tm_year tm + YEAR0) in
  let month := wrap8 (tm_mon tm + 1) in
  let current_day := wrap8 (tm_mday tm) in
  emit (Paint_Clear WHITE);;
  draw_calendar_title year month;;
  draw_week_header fuel;;
  draw_calendar_grid fuel;;
  draw_calendar_dates fuel year month current_day;;
  time_buf <- sprintf 20 (fmt_02d (tm_hour tm) ++ ":" ++ fmt_02d (tm_min tm))%string;;
  emit (EPD_DrawUTF8 150 115 1 time_buf EPD_ASCII_11X16
          (Some EPD_FontUTF8_16x16) BLACK WHITE).

End Renderer.

(** ** Reference definitions

    The statements below compare the renderer with these definitions, which
    use exact integer arithmetic and follow the written specification. *)

(** Modelled from the spec: [is_leap_year] of [etime.h] is not part of the
    sources at hand; a year is leap iff it is divisible by 4 and (not
    divisible by 100, or divisible by 400). *)
Definition gregorian_leap (year : Z) : bool :=
  (year mod 4 =? 0) && (negb (year mod 100 =? 0) || (year mod 400 =? 0)).

(** The canonical Gregorian length of month [m] (1 = January). *)
Definition canonical_days (leap : bool) (m : Z) : Z :=
  match m with
  | 1 | 3 | 5 | 7 | 8 | 10 | 12 => 31
  | 4 | 6 | 9 | 11 => 30
  | 2 => if leap then 29 else 28
  | _ => 0
  end.

(** A collaborator returns a truth value when its result is 0 or 1. *)
Definition is_boolean (z : Z) : Prop := z = 0 \/ z = 1.

(** The leap flag of the Gregorian rule, standing in for [is_leap] in closed
    instances. *)
Definition gregorian_flag (year : Z) : Z := Z.b2z (gregorian_leap year).

(** A weekday computation for the 1st of a month (Sakamoto's method,
    0 = Sunday), standing in for [day_of_week_get] in closed instances. *)
Definition sakamoto (month day year : Z) : Z :=
  let t := [0; 3; 2; 5; 0; 3; 5; 1; 4; 6; 2; 4] in
  let y := if month <? 3 then year - 1 else year in
  (y + y / 4 - y / 100 + y / 400 + nth (Z.to_nat (month - 1)) t 0 + day) mod 7.

(** A decomposer that always answers 2024-02-15 09:05, for closed
    instances. *)
Definition fixed_time (_ : Z) : tm_t := mk_tm 54 1 15 9 5.

Module Layout.
Definition x_start : Z := 10.
Definition y_start : Z := 40.
Definition header_y : Z := 25.
Definition cell_width : Z := 28.
Definition cell_height : Z := 12.
Definition grid_width : Z := 7 * cell_width.
Definition grid_height : Z := 6 * cell_height.
End Layout.

(** The days [1 .. n] of a month. *)
Definition days (n : Z) : list Z :=
  map (fun j => 1 + Z.of_nat j) (seq 0 (Z.to_nat n)).

(** The grid cell of day [d] when the 1st falls on weekday [first]. *)
Definition grid_row (first d : Z) : Z := (first + d - 1) / 7.
Definition grid_col (first d : Z) : Z := (first + d - 1) mod 7.

(** The cursor of the date loop when it reaches day [d]. *)
Definition cursor_at (first d : Z) : Z * Z :=
  Nat.iter (Z.to_nat (d - 1)) advance (0, first).

(** The weekday labels drawn [pad] pixels right of their column's edge. *)
Definition header_draws (pad : Z) : list draw_cmd :=
  map (fun i =>
         EPD_DrawUTF8 (Layout.x_start + Z.of_nat i * Layout.cell_width + pad)
           Layout.header_y 0 (nth i week_names_cn "") EPD_ASCII_7X12
           (Some EPD_FontUTF8_16x16) BLACK WHITE)
      (seq 0 7).

Definition horizontal_line (i : nat) : draw_cmd :=
  let y := Layout.y_start + Z.of_nat i * Layout.cell_height in
  Paint_DrawLine Layout.x_start y (Layout.x_start + 7 * Layout.cell_width) y
    BLACK DOT_PIXEL_1X1 LINE_STYLE_SOLID.

Definition vertical_line (i : nat) : draw_cmd :=
  let x := Layout.x_start + Z.of_nat i * Layout.cell_width in
  Paint_DrawLine x Layout.y_start x (Layout.y_start + 6 * Layout.cell_height)
    BLACK DOT_PIXEL_1X1 LINE_STYLE_SOLID.

Definition grid_draws : list draw_cmd :=
  map horizontal_line (seq 0 7) ++ map vertical_line (seq 0 8).

(** The draws of day [d] in cell [(row, col)], in exact arithmetic. *)
Definition cell_draws (current_day d row col : Z) : list draw_cmd :=
  let x := Layout.x_start + col * Layout.cell_width in
  let y := Layout.y_start + row * Layout.cell_height in
  if d =? current_day then
    [ Paint_DrawRectangle (x + 1) (y + 1)
        (x + Layout.cell_width - 1) (y + Layout.cell_height - 1)
        BLACK DOT_PIXEL_1X1 DRAW_FILL_FULL;
      EPD_DrawUTF8 (x + 8) (y + 2) 0 (fmt_d d) EPD_ASCII_7X12 None
        WHITE BLACK ]
  else
    [ EPD_DrawUTF8 (x + 8) (y + 2) 0 (fmt_d d) EPD_ASCII_7X12 None
        BLACK WHITE ].

(** What the date loop appends for a month of [n] days. *)
Definition dates_draws (current_day first n : Z) : list draw_cmd :=
  flat_map (fun d => emitted (dates_body current_day d (cursor_at first d)))
           (days n).

(** The pixel coordinates a command mentions. *)
Definition cmd_coords (d : draw_cmd) : list Z :=
  match d with
  | Paint_Clear _ => []
  | Paint_DrawLine x0 y0 x1 y1 _ _ _ => [x0; y0; x1; y1]
  | Paint_DrawRectangle x0 y0 x1 y1 _ _ _ => [x0; y0; x1; y1]
  | EPD_DrawUTF8 x y _ _ _ _ _ _ => [x; y]
  end.

Definition coords (l : list draw_cmd) : list Z := flat_map cmd_coords l.

Definition is_highlight_rect (d : draw_cmd) : bool :=
  match d with
  | Paint_DrawRectangle _ _ _ _ BLACK _ DRAW_FILL_FULL => true
  | _ => false
  end.

Definition is_inverted_text (d : draw_cmd) : bool :=
  match d with
  | EPD_DrawUTF8 _ _ _ _ _ _ WHITE BLACK => true
  | _ => false
  end.

Definition is_plain_text (d : draw_cmd) : bool :=
  match d with
  | EPD_DrawUTF8 _ _ _ _ _ _ BLACK WHITE => true
  | _ => false
  end.

Definition count (p : draw_cmd -> bool) (l : list draw_cmd) : nat :=
  List.length (filter p l).

(** [p] holds of the [n] integers from [lo] on. *)
Fixpoint all_from (p : Z -> bool) (n : nat) (lo : Z) : bool :=
  match n with
  | O => true
  | Datatypes.S n' => p lo && all_from p n' (lo + 1)
  end.

(** The text of a text draw, and whether it fits a buffer of [size] bytes
    together with its terminating NUL. *)
Definition cmd_text (d : draw_cmd) : option string :=
  match d with
  | EPD_DrawUTF8 _ _ _ str _ _ _ _ => Some str
  | _ => None
  end.

Definition fits (size : nat) (d : draw_cmd) : Prop :=
  forall s, cmd_text d = Some s -> (String.length s + 1 <= size)%nat.

(** The title and the footer of the page. *)
Definition title_draw (year month : Z) : draw_cmd :=
  EPD_DrawUTF8 50 2 1 (fmt_d year ++ "年" ++ fmt_d month ++ "月")%string
    EPD_ASCII_11X16 (Some EPD_FontUTF8_16x16) BLACK WHITE.

Definition footer_draw (hour minute : Z) : draw_cmd :=
  EPD_DrawUTF8 150 115 1 (fmt_02d hour ++ ":" ++ fmt_02d minute)%string
    EPD_ASCII_11X16 (Some EPD_FontUTF8_16x16) BLACK WHITE.

(** Modelled from the spec: the contract of the time decomposer, which is
    not part of the sources at hand (month 1-12, hour 0-23, minute 0-59;
    [tm_mon] counts from 0). *)
Definition tm_in_range (tm : tm_t) : Prop :=
  0 <= tm_mon tm <= 11 /\ 0 <= tm_hour tm <= 23 /\ 0 <= tm_min tm <= 59.

(** ** Positions and texts in a log *)

(** A decomposer that answers month 13, for closed instances. *)
Definition month_13_time (_ : Z) : tm_t := mk_tm 54 12 15 9 5.

(** The texts drawn, in order. *)
Definition texts (l : list draw_cmd) : list string :=
  flat_map (fun d => match cmd_text d with Some s => [s] | None => [] end) l.

(** The positions at which texts are drawn, in order. *)
Definition anchors (l : list draw_cmd) : list (Z * Z) :=
  flat_map (fun d => match d with
                     | EPD_DrawUTF8 x y _ _ _ _ _ _ => [(x, y)]
                     | _ => []
                     end) l.

(** The points a command mentions. *)
Definition cmd_points (d : draw_cmd) : list (Z * Z) :=
  match d with
  | Paint_Clear _ => []
  | Paint_DrawLine x0 y0 x1 y1 _ _ _ => [(x0, y0); (x1, y1)]
  | Paint_DrawRectangle x0 y0 x1 y1 _ _ _ => [(x0, y0); (x1, y1)]
  | EPD_DrawUTF8 x y _ _ _ _ _ _ => [(x, y)]
  end.

Definition points (l : list draw_cmd) : list (Z * Z) := flat_map cmd_points l.

Definition ys (l : list draw_cmd) : list Z := map snd (points l).

(** The grid lines that bound column [i] on the left and row [i] above. *)
Definition column_edge (i : Z) : Z := Layout.x_start + i * Layout.cell_width.
Definition row_edge (i : Z) : Z := Layout.y_start + i * Layout.cell_height.

(** A point strictly between the grid lines around cell [(row, col)]. *)
Definition in_cell (row col : Z) (p : Z * Z) : Prop :=
  column_edge col < fst p < column_edge (col + 1) /\
  row_edge row < snd p < row_edge (row + 1).

(** A horizontal line [h] and a vertical line [v] that meet. *)
Definition crosses (h v : draw_cmd) : Prop :=
  match h, v with
  | Paint_DrawLine xa y xb y' _ _ _, Paint_DrawLine x ya x' yb _ _ _ =>
      y = y' /\ x = x' /\ xa <= x <= xb /\ ya <= y <= yb
  | _, _ => False
  end.

(** * Properties *)

(** ** The rendering monad *)

Lemma emits_ret {A} (a : A) : emits (ret a) a [].
Proof. intros c. unfold ret. now rewrite app_nil_r. Qed.

Lemma emits_emit (d : draw_cmd) : emits (emit d) tt [d].
Proof. intros c. reflexivity. Qed.

Lemma emits_bind {A B} (m : M A) (k : A -> M B) a b l1 l2 :
  emits m a l1 -> emits (k a) b l2 -> emits (bind m k) b (l1 ++ l2).
Proof.
  intros Hm Hk c. unfold bind. rewrite Hm, Hk. now rewrite app_assoc.
Qed.

Lemma emits_emitted {A} (m : M A) a l : emits m a l -> emitted m = l.
Proof. intros H. unfold emitted. now rewrite H. Qed.

Lemma emits_eq {A} (m : M A) a l l' : emits m a l -> l = l' -> emits m a l'.
Proof. now intros H <-. Qed.

(** Two calls in a row append the same commands twice. *)
Lemma emits_twice (m : M unit) l :
  emits m tt l -> emits (m;; m) tt (l ++ l).
Proof. intros H. now apply emits_bind with (a := tt). Qed.

(** ** Counted loops *)

Lemma wrap8_small z : 0 <= z <= 255 -> wrap8 z = z.
Proof. intros H. unfold wrap8. apply Z.mod_small. lia. Qed.

Lemma flat_map_seq_shift {B} (f : nat -> list B) k :
  flat_map f (seq 1 k) = flat_map (fun j => f (S j)) (seq 0 k).
Proof.
  rewrite <- seq_shift. induction (seq 0 k) as [|x xs IH]; simpl; congruence.
Qed.

(** A loop that runs [k] times from [i], each body extending the log by
    [out] and updating the locals by [next]. *)
Lemma for_uint8_emits {S} (cond : Z -> bool) (body : Z -> S -> M S)
    (next : S -> S) (out : Z -> S -> list draw_cmd) :
  forall (k fuel : nat) (i : Z) (s : S),
    (k < fuel)%nat ->
    0 <= i -> i + Z.of_nat k <= 255 ->
    (forall j s', i <= j < i + Z.of_nat k ->
                  cond j = true /\ emits (body j s') (next s') (out j s')) ->
    cond (i + Z.of_nat k) = false ->
    emits (for_uint8 fuel cond body i s) (Nat.iter k next s)
          (flat_map (fun j => out (i + Z.of_nat j) (Nat.iter j next s))
                    (seq 0 k)).
Proof.
  induction k as [|k IH]; intros fuel i s Hfuel Hi Hhi Hbody Hstop;
    destruct fuel as [|fuel]; try lia; cbn [for_uint8].
  - rewrite Z.add_0_r in Hstop. rewrite Hstop. apply emits_ret.
  - destruct (Hbody i s ltac:(lia)) as [-> Hb].
    rewrite wrap8_small by lia.
    cbn [seq flat_map]. rewrite Z.add_0_r. cbn [Nat.iter].
    rewrite flat_map_seq_shift, Nat.iter_succ_r.
    eapply emits_bind; [exact Hb|].
    eapply emits_eq.
    + apply IH; try lia.
      * intros j s' Hj. apply Hbody. lia.
      * replace (i + 1 + Z.of_nat k) with (i + Z.of_nat (Datatypes.S k)) by lia.
        exact Hstop.
    + apply flat_map_ext. intros j.
      rewrite Nat.iter_succ_r.
      now replace (i + 1 + Z.of_nat j) with (i + Z.of_nat (Datatypes.S j)) by lia.
Qed.

(** ** Formatting *)

Lemma length_append (s t : string) :
  String.length (s ++ t)%string = (String.length s + String.length t)%nat.
Proof. induction s as [|a s IH]; simpl; congruence. Qed.

Lemma all_from_spec (p : Z -> bool) :
  forall n lo, all_from p n lo = true ->
               forall z, lo <= z < lo + Z.of_nat n -> p z = true.
Proof.
  induction n as [|n IH]; intros lo H z Hz; [lia|].
  cbn [all_from] in H. apply andb_true_iff in H as [H0 H1].
  destruct (Z.eq_dec z lo) as [->|Hne]; [exact H0|].
  apply (IH (lo + 1) H1). lia.
Qed.

Lemma fmt_d_two_digits z :
  0 <= z < 100 -> (String.length (fmt_d z) <= 2)%nat.
Proof.
  intros Hz. apply Nat.leb_le.
  apply (all_from_spec (fun z => (String.length (fmt_d z) <=? 2)%nat)
           100 0); [vm_compute; reflexivity | exact Hz].
Qed.

Lemma fmt_d_uint16 z :
  in_uint16 z -> (String.length (fmt_d z) <= 5)%nat.
Proof.
  intros Hz. apply Nat.leb_le.
  apply (all_from_spec (fun z => (String.length (fmt_d z) <=? 5)%nat)
           (Z.to_nat 65536) 0); [vm_compute; reflexivity|].
  unfold in_uint16 in Hz. lia.
Qed.

Lemma fmt_d_uint8 z :
  in_uint8 z -> (String.length (fmt_d z) <= 3)%nat.
Proof.
  intros Hz. apply Nat.leb_le.
  apply (all_from_spec (fun z => (String.length (fmt_d z) <=? 3)%nat)
           256 0); [vm_compute; reflexivity | exact Hz].
Qed.

Lemma fmt_02d_two_digits z :
  0 <= z < 100 -> String.length (fmt_02d z) = 2%nat.
Proof.
  intros Hz. apply Nat.eqb_eq.
  apply (all_from_spec (fun z => (String.length (fmt_02d z) =? 2)%nat)
           100 0); [vm_compute; reflexivity | exact Hz].
Qed.

Lemma sprintf_fits size text :
  (String.length text + 1 <= size)%nat -> emits (sprintf size text) text [].
Proof.
  intros H. unfold sprintf. apply Nat.leb_le in H. rewrite H. apply emits_ret.
Qed.

(** ** The month-length table *)

Lemma array_get_range {A} (a : list A) i v :
  array_get a i = Some v -> 0 <= i < Z.of_nat (List.length a).
Proof.
  unfold array_get. destruct (Z.ltb_spec i 0) as [|Hi]; [discriminate|].
  intros H. assert (nth_error a (Z.to_nat i) <> None) as Hn by congruence.
  apply nth_error_Some in Hn. lia.
Qed.

Lemma array_get_in_range {A} (a : list A) i :
  0 <= i < Z.of_nat (List.length a) -> exists v, array_get a i = Some v.
Proof.
  intros Hi. unfold array_get.
  destruct (Z.ltb_spec i 0) as [|_]; [lia|].
  destruct (nth_error a (Z.to_nat i)) as [v|] eqn:E; [now exists v|].
  apply nth_error_None in E. lia.
Qed.

Lemma table_entry_range leap idx n :
  table_entry leap idx = Some n ->
  0 <= leap <= 1 /\ 0 <= idx <= 11 /\ 28 <= n <= 31.
Proof.
  unfold table_entry. intros H.
  destruct (array_get days_in_month leap) as [row|] eqn:Erow; [|discriminate].
  pose proof (array_get_range _ _ _ Erow) as Hl. cbn in Hl.
  assert (leap = 0 \/ leap = 1) as [-> | ->] by lia;
    cbv in Erow; injection Erow as <-;
    pose proof (array_get_range _ _ _ H) as Hi; cbn in Hi;
    (assert (idx = 0 \/ idx = 1 \/ idx = 2 \/ idx = 3 \/ idx = 4 \/ idx = 5 \/
             idx = 6 \/ idx = 7 \/ idx = 8 \/ idx = 9 \/ idx = 10 \/ idx = 11)
      as Hc by lia);
    repeat (destruct Hc as [-> | Hc]); try subst idx;
    cbv in H; injection H as <-; lia.
Qed.

Lemma table_entry_defined leap idx :
  0 <= leap <= 1 -> 0 <= idx <= 11 -> exists n, table_entry leap idx = Some n.
Proof.
  intros Hl Hi. unfold table_entry.
  destruct (array_get_in_range days_in_month leap) as [row Hrow];
    [cbn; lia|].
  rewrite Hrow.
  apply array_get_in_range.
  assert (leap = 0 \/ leap = 1) as [-> | ->] by lia;
    cbv in Hrow; injection Hrow as <-; cbn; lia.
Qed.

Lemma leap_index_boolean z : is_boolean z -> 0 <= wrap8 z <= 1.
Proof. intros [-> | ->]; cbv; split; discriminate. Qed.

(** ** The week header and the grid *)

Ltac one_of j :=
  match goal with
  | H : _ \/ _ |- _ => destruct H as [H | H]; [subst j | one_of j]
  | H : j = _ |- _ => subst j
  end.

Lemma draw_week_header_emits fuel :
  (7 < fuel)%nat -> emits (draw_week_header fuel) tt (header_draws 8).
Proof.
  intros Hfuel. unfold draw_week_header.
  eapply emits_eq.
  - apply (for_uint8_emits _ _ (fun s => s)
             (fun i _ => [EPD_DrawUTF8 (10 + i * 28 + 8) 25 0
                            (nth (Z.to_nat i) week_names_cn "") EPD_ASCII_7X12
                            (Some EPD_FontUTF8_16x16) BLACK WHITE]) 7);
      try lia; [|reflexivity].
    intros j [] Hj.
    assert (j = 0 \/ j = 1 \/ j = 2 \/ j = 3 \/ j = 4 \/ j = 5 \/ j = 6)
      as Hc by lia.
    one_of j; (split; [reflexivity | intros c; reflexivity]).
  - reflexivity.
Qed.

Lemma draw_calendar_grid_emits fuel :
  (8 < fuel)%nat -> emits (draw_calendar_grid fuel) tt grid_draws.
Proof.
  intros Hfuel. unfold draw_calendar_grid, grid_draws.
  eapply emits_bind with (a := tt).
  - eapply emits_eq.
    + apply (for_uint8_emits _ _ (fun s => s)
               (fun i _ => [Paint_DrawLine 10 (40 + i * 12) 206 (40 + i * 12)
                              BLACK DOT_PIXEL_1X1 LINE_STYLE_SOLID]) 7);
        try lia; [|reflexivity].
      intros j [] Hj.
      assert (j = 0 \/ j = 1 \/ j = 2 \/ j = 3 \/ j = 4 \/ j = 5 \/ j = 6)
        as Hc by lia.
      one_of j; (split; [reflexivity | intros c; reflexivity]).
    + reflexivity.
  - eapply emits_eq.
    + apply (for_uint8_emits _ _ (fun s => s)
               (fun i _ => [Paint_DrawLine (10 + i * 28) 40 (10 + i * 28) 112
                              BLACK DOT_PIXEL_1X1 LINE_STYLE_SOLID]) 8);
        try lia; [|reflexivity].
      intros j [] Hj.
      assert (j = 0 \/ j = 1 \/ j = 2 \/ j = 3 \/ j = 4 \/ j = 5 \/ j = 6 \/
              j = 7) as Hc by lia.
      one_of j; (split; [reflexivity | intros c; reflexivity]).
    + reflexivity.
Qed.

(** ** The title *)

Lemma draw_calendar_title_emits year month :
  in_uint16 year -> in_uint8 month ->
  emits (draw_calendar_title year month) tt [title_draw year month].
Proof.
  intros Hy Hm. unfold draw_calendar_title.
  eapply (emits_bind _ _ _ _ []); [|apply emits_emit].
  apply sprintf_fits. rewrite !length_append.
  pose proof (fmt_d_uint16 year Hy). pose proof (fmt_d_uint8 month Hm).
  cbn [String.length]. lia.
Qed.

(** ** The date loop *)

Lemma day_buf_fits d :
  1 <= d <= 99 -> (String.length (fmt_d d) + 1 <=? 3)%nat = true.
Proof.
  intros Hd. apply Nat.leb_le.
  pose proof (fmt_d_two_digits d ltac:(lia)). lia.
Qed.

(** The body of the loop finishes and moves the cursor on. *)
Lemma dates_body_emits cur d cursor :
  1 <= d <= 99 ->
  emits (dates_body cur d cursor) (advance cursor)
        (emitted (dates_body cur d cursor)).
Proof.
  intros Hd.
  assert (exists l, emits (dates_body cur d cursor) (advance cursor) l)
    as [l Hl].
  { destruct cursor as [row col]. unfold dates_body.
    destruct (d =? cur); eexists.
    - eapply emits_bind;
        [apply sprintf_fits; apply Nat.leb_le, day_buf_fits, Hd|].
      eapply emits_bind; [|apply emits_ret].
      eapply emits_bind; apply emits_emit.
    - eapply emits_bind;
        [apply sprintf_fits; apply Nat.leb_le, day_buf_fits, Hd|].
      eapply emits_bind; [|apply emits_ret].
      apply emits_emit. }
  now rewrite (emits_emitted _ _ _ Hl).
Qed.

(** The commands of one iteration, with the conversions of the source. *)
Lemma emitted_dates_body cur d row col :
  1 <= d <= 99 ->
  emitted (dates_body cur d (row, col)) =
  let x_pos := wrap8 (10 + col * 28 + 8) in
  let y_pos := wrap8 (40 + row * 12 + 2) in
  if d =? cur then
    [ Paint_DrawRectangle (10 + col * 28 + 1) (40 + row * 12 + 1)
        (10 + (col + 1) * 28 - 1) (40 + (row + 1) * 12 - 1)
        BLACK DOT_PIXEL_1X1 DRAW_FILL_FULL;
      EPD_DrawUTF8 x_pos y_pos 0 (fmt_d d) EPD_ASCII_7X12 None WHITE BLACK ]
  else
    [ EPD_DrawUTF8 x_pos y_pos 0 (fmt_d d) EPD_ASCII_7X12 None BLACK WHITE ].
Proof.
  intros Hd. unfold emitted, dates_body, bind, sprintf.
  rewrite (day_buf_fits d Hd). unfold ret.
  destruct (d =? cur); reflexivity.
Qed.

Lemma emitted_dates_body_exact cur d row col :
  1 <= d <= 99 -> 0 <= row <= 5 -> 0 <= col <= 6 ->
  emitted (dates_body cur d (row, col)) = cell_draws cur d row col.
Proof.
  intros Hd Hr Hc. rewrite emitted_dates_body by exact Hd.
  unfold cell_draws, Layout.x_start, Layout.y_start, Layout.cell_width,
    Layout.cell_height.
  cbv zeta. rewrite !wrap8_small by lia.
  replace (10 + (col + 1) * 28 - 1) with (10 + col * 28 + 28 - 1) by lia.
  replace (40 + (row + 1) * 12 - 1) with (40 + row * 12 + 12 - 1) by lia.
  reflexivity.
Qed.

Lemma flat_map_map {A B C} (f : B -> list C) (g : A -> B) l :
  flat_map f (map g l) = flat_map (fun x => f (g x)) l.
Proof. induction l as [|x xs IH]; simpl; congruence. Qed.

Section Dates.
Variable is_leap : Z -> Z.
Variable day_of_week_get : Z -> Z -> Z -> Z.

Lemma get_days_in_month_range year month n :
  get_days_in_month is_leap year month = Some n ->
  1 <= month <= 12 /\ 28 <= n <= 31.
Proof.
  unfold get_days_in_month, month_index. intros H.
  apply table_entry_range in H. lia.
Qed.

Lemma get_days_in_month_defined year month :
  is_boolean (is_leap year) -> 1 <= month <= 12 ->
  exists n, get_days_in_month is_leap year month = Some n.
Proof.
  intros Hl Hm. unfold get_days_in_month, month_index.
  apply table_entry_defined; [now apply leap_index_boolean | lia].
Qed.

Lemma draw_calendar_dates_emits fuel year month cur n :
  get_days_in_month is_leap year month = Some n ->
  (Z.to_nat n < fuel)%nat ->
  emits (draw_calendar_dates is_leap day_of_week_get fuel year month cur) tt
    (dates_draws cur (get_first_day_of_month day_of_week_get year month) n).
Proof.
  intros Hn Hfuel. pose proof (get_days_in_month_range _ _ _ Hn) as [_ Hr].
  unfold draw_calendar_dates. rewrite Hn. cbn [value_of].
  eapply emits_eq.
  - eapply (emits_bind _ _ _ _ []); [apply emits_ret|].
    eapply emits_bind; [|apply emits_ret].
    apply (for_uint8_emits _ _ advance
             (fun d c => emitted (dates_body cur d c)) (Z.to_nat n));
      try lia.
    + intros j s Hj. split; [apply Z.leb_le; lia|].
      apply dates_body_emits. lia.
    + apply Z.leb_gt. lia.
  - cbn [app]. rewrite app_nil_r. unfold dates_draws, days.
    rewrite flat_map_map. apply flat_map_ext. intros j.
    unfold cursor_at.
    now replace (Z.to_nat (1 + Z.of_nat j - 1)) with j by lia.
Qed.
End Dates.

(** The cursor in closed form. *)
Lemma iter_advance first k :
  0 <= first <= 6 -> (k <= 1000)%nat ->
  Nat.iter k advance (0, first) =
  ((first + Z.of_nat k) / 7, (first + Z.of_nat k) mod 7).
Proof.
  intros Hf. induction k as [|k IH]; intros Hk.
  - change (Nat.iter 0 advance (0, first)) with (0, first).
    rewrite Z.add_0_r, Z.div_small, Z.mod_small by lia.
    reflexivity.
  - rewrite Nat.iter_succ, IH by lia. unfold advance.
    assert (0 <= (first + Z.of_nat k) mod 7 < 7) as Hm
      by (apply Z.mod_pos_bound; lia).
    assert (0 <= (first + Z.of_nat k) / 7 <= 200) as Hq
      by (split; [apply Z.div_pos; lia | apply Z.div_le_upper_bound; lia]).
    rewrite wrap8_small by lia.
    destruct (Z.leb_spec 7 ((first + Z.of_nat k) mod 7 + 1)) as [H7|H7].
    + rewrite wrap8_small by lia. f_equal; Z.div_mod_to_equations; lia.
    + f_equal; Z.div_mod_to_equations; lia.
Qed.

Lemma cursor_at_closed first d :
  0 <= first <= 6 -> 1 <= d <= 31 ->
  cursor_at first d = (grid_row first d, grid_col first d).
Proof.
  intros Hf Hd. unfold cursor_at, grid_row, grid_col.
  rewrite iter_advance by lia.
  now replace (first + Z.of_nat (Z.to_nat (d - 1))) with (first + d - 1) by lia.
Qed.

Lemma grid_cell_bounds first d :
  0 <= first <= 6 -> 1 <= d <= 31 ->
  0 <= grid_row first d <= 5 /\ 0 <= grid_col first d <= 6.
Proof.
  intros Hf Hd. unfold grid_row, grid_col.
  Z.div_mod_to_equations. lia.
Qed.

Lemma in_days n d : In d (days n) <-> 1 <= d <= n.
Proof.
  unfold days. rewrite in_map_iff. split.
  - intros [j [<- Hj]]. apply in_seq in Hj. lia.
  - intros Hd. exists (Z.to_nat (d - 1)). split; [lia|]. apply in_seq. lia.
Qed.

Lemma flat_map_ext_in {A B} (f g : A -> list B) l :
  (forall x, In x l -> f x = g x) -> flat_map f l = flat_map g l.
Proof.
  induction l as [|x xs IH]; intros H; [reflexivity|].
  cbn [flat_map]. rewrite H by now left.
  rewrite IH; [reflexivity|]. intros y Hy. apply H. now right.
Qed.

(** On a well-formed month the loop draws every day in its closed-form
    cell, in exact arithmetic. *)
Lemma dates_draws_exact cur first n :
  0 <= first <= 6 -> n <= 31 ->
  dates_draws cur first n =
  flat_map (fun d => cell_draws cur d (grid_row first d) (grid_col first d))
           (days n).
Proof.
  intros Hf Hn. unfold dates_draws. apply flat_map_ext_in.
  intros d Hd. apply in_days in Hd.
  rewrite cursor_at_closed by lia.
  pose proof (grid_cell_bounds first d Hf ltac:(lia)) as [Hr Hc].
  apply emitted_dates_body_exact; lia.
Qed.

(** ** Counting the highlight *)

Lemma count_app p l1 l2 : count p (l1 ++ l2) = (count p l1 + count p l2)%nat.
Proof. unfold count. now rewrite filter_app, length_app. Qed.

Lemma days_succ k :
  days (Z.of_nat (Datatypes.S k)) = days (Z.of_nat k) ++ [Z.of_nat (Datatypes.S k)].
Proof.
  unfold days. rewrite !Nat2Z.id, seq_S, map_app. cbn [map Nat.add].
  do 3 f_equal. lia.
Qed.

Lemma dates_draws_succ cur first k :
  dates_draws cur first (Z.of_nat (Datatypes.S k)) =
  dates_draws cur first (Z.of_nat k) ++
  emitted (dates_body cur (Z.of_nat (Datatypes.S k))
             (cursor_at first (Z.of_nat (Datatypes.S k)))).
Proof.
  unfold dates_draws. rewrite days_succ, flat_map_app. cbn [flat_map].
  now rewrite app_nil_r.
Qed.

(** If one iteration contributes [a] matches on the current day and [b] on
    any other day, the whole month contributes as follows. *)
Lemma count_dates_draws p (a b : nat) cur first :
  (forall d cursor, 1 <= d <= 99 ->
     count p (emitted (dates_body cur d cursor)) = if d =? cur then a else b) ->
  forall k, (k <= 99)%nat ->
    count p (dates_draws cur first (Z.of_nat k)) =
    if (1 <=? cur) && (cur <=? Z.of_nat k)
    then (a + b * (k - 1))%nat else (b * k)%nat.
Proof.
  intros Hbody. induction k as [|k IH]; intros Hk.
  - destruct (Z.leb_spec 1 cur), (Z.leb_spec cur (Z.of_nat 0));
      cbn [andb]; try lia; try reflexivity; now rewrite Nat.mul_0_r.
  - rewrite dates_draws_succ, count_app, IH, Hbody by lia.
    destruct (Z.eqb_spec (Z.of_nat (Datatypes.S k)) cur) as [E|E];
      destruct (Z.leb_spec 1 cur), (Z.leb_spec cur (Z.of_nat k)),
               (Z.leb_spec cur (Z.of_nat (Datatypes.S k)));
      cbn [andb]; try lia.
    all: destruct k as [|k]; cbn [Nat.sub];
      rewrite ?Nat.sub_0_r, ?Nat.mul_succ_r, ?Nat.mul_0_r; lia.
Qed.

Lemma count_highlight_rect_body cur d cursor :
  1 <= d <= 99 ->
  count is_highlight_rect (emitted (dates_body cur d cursor)) =
  if d =? cur then 1%nat else 0%nat.
Proof.
  intros Hd. destruct cursor as [row col].
  rewrite emitted_dates_body by exact Hd. cbv zeta.
  destruct (d =? cur); reflexivity.
Qed.

Lemma count_inverted_text_body cur d cursor :
  1 <= d <= 99 ->
  count is_inverted_text (emitted (dates_body cur d cursor)) =
  if d =? cur then 1%nat else 0%nat.
Proof.
  intros Hd. destruct cursor as [row col].
  rewrite emitted_dates_body by exact Hd. cbv zeta.
  destruct (d =? cur); reflexivity.
Qed.

Lemma count_plain_text_body cur d cursor :
  1 <= d <= 99 ->
  count is_plain_text (emitted (dates_body cur d cursor)) =
  if d =? cur then 0%nat else 1%nat.
Proof.
  intros Hd. destruct cursor as [row col].
  rewrite emitted_dates_body by exact Hd. cbv zeta.
  destruct (d =? cur); reflexivity.
Qed.

Lemma length_dates_body cur d cursor :
  1 <= d <= 99 ->
  List.length (emitted (dates_body cur d cursor)) =
  if d =? cur then 2%nat else 1%nat.
Proof.
  intros Hd. destruct cursor as [row col].
  rewrite emitted_dates_body by exact Hd. cbv zeta.
  destruct (d =? cur); reflexivity.
Qed.

Lemma count_all l : count (fun _ => true) l = List.length l.
Proof.
  unfold count. induction l as [|x xs IH]; simpl; congruence.
Qed.

(** ** Coordinates *)

Lemma Forall_coords (P : Z -> Prop) {A} (f : A -> list draw_cmd) l :
  (forall x, In x l -> Forall P (coords (f x))) ->
  Forall P (coords (flat_map f l)).
Proof.
  intros H. induction l as [|x xs IH]; [constructor|].
  unfold coords in *. cbn [flat_map]. rewrite flat_map_app.
  apply Forall_app. split; [apply H; now left|].
  apply IH. intros y Hy. apply H. now right.
Qed.

Lemma cell_draws_coords cur d row col :
  0 <= row <= 5 -> 0 <= col <= 6 ->
  Forall (fun z => 0 <= z <= 206) (coords (cell_draws cur d row col)).
Proof.
  intros Hr Hc.
  unfold cell_draws, Layout.x_start, Layout.y_start, Layout.cell_width,
    Layout.cell_height.
  cbv zeta. destruct (d =? cur); cbn [coords flat_map cmd_coords app];
    repeat constructor; lia.
Qed.

Lemma header_draws_coords :
  Forall (fun z => 0 <= z <= 206) (coords (header_draws 8)).
Proof. cbv [header_draws coords]. cbn. repeat constructor; now cbv. Qed.

Lemma grid_draws_coords :
  Forall (fun z => 0 <= z <= 206) (coords grid_draws).
Proof. cbv [grid_draws coords]. cbn. repeat constructor; now cbv. Qed.


(** ** The page *)

Lemma wrap16_range z : in_uint16 (wrap16 z).
Proof. unfold in_uint16, wrap16. apply Z.mod_pos_bound. lia. Qed.

Lemma wrap8_range z : in_uint8 (wrap8 z).
Proof. unfold in_uint8, wrap8. apply Z.mod_pos_bound. lia. Qed.

Lemma footer_fits hour minute :
  0 <= hour <= 23 -> 0 <= minute <= 59 ->
  emits (sprintf 20 (fmt_02d hour ++ ":" ++ fmt_02d minute)%string)
        (fmt_02d hour ++ ":" ++ fmt_02d minute)%string [].
Proof.
  intros Hh Hm. apply sprintf_fits. rewrite !length_append.
  rewrite !fmt_02d_two_digits by lia. cbn [String.length]. lia.
Qed.

Section Page.
Variable is_leap : Z -> Z.
Variable day_of_week_get : Z -> Z -> Z -> Z.
Variable transformTime : Z -> tm_t.
Variable YEAR0 : Z.

Lemma draw_calendar_page_emits fuel unix_time n :
  let tm := transformTime unix_time in
  let year := wrap16 (tm_year tm + YEAR0) in
  let month := wrap8 (tm_mon tm + 1) in
  let current_day := wrap8 (tm_mday tm) in
  0 <= tm_hour tm <= 23 -> 0 <= tm_min tm <= 59 ->
  get_days_in_month is_leap year month = Some n ->
  (31 < fuel)%nat ->
  emits (draw_calendar_page is_leap day_of_week_get transformTime YEAR0
           fuel unix_time) tt
    (Paint_Clear WHITE :: title_draw year month ::
     header_draws 8 ++ grid_draws ++
     dates_draws current_day
       (get_first_day_of_month day_of_week_get year month) n ++
     [footer_draw (tm_hour tm) (tm_min tm)]).
Proof.
  intros tm year month current_day Hh Hm Hn Hfuel.
  pose proof (get_days_in_month_range _ _ _ _ Hn) as [_ Hr].
  unfold draw_calendar_page.
  fold tm. fold year. fold month. fold current_day.
  eapply emits_eq.
  - eapply emits_bind; [apply emits_emit|].
    eapply emits_bind;
      [apply draw_calendar_title_emits;
       [apply wrap16_range | apply wrap8_range]|].
    eapply emits_bind; [apply draw_week_header_emits; lia|].
    eapply emits_bind; [apply draw_calendar_grid_emits; lia|].
    eapply emits_bind;
      [apply draw_calendar_dates_emits; [exact Hn | lia]|].
    eapply emits_bind; [apply footer_fits; assumption | apply emits_emit].
  - reflexivity.
Qed.
End Page.

(** ** Texts of the day numbers *)

Lemma texts_app l1 l2 : texts (l1 ++ l2) = texts l1 ++ texts l2.
Proof. unfold texts. apply flat_map_app. Qed.

Lemma anchors_app l1 l2 : anchors (l1 ++ l2) = anchors l1 ++ anchors l2.
Proof. unfold anchors. apply flat_map_app. Qed.

Lemma flat_map_singleton {A B} (f : A -> B) l :
  flat_map (fun x => [f x]) l = map f l.
Proof. induction l as [|x xs IH]; simpl; congruence. Qed.

Lemma flat_map_flat_map {A B C} (g : B -> list C) (f : A -> list B) l :
  flat_map g (flat_map f l) = flat_map (fun x => flat_map g (f x)) l.
Proof.
  induction l as [|x xs IH]; [reflexivity|].
  cbn [flat_map]. now rewrite flat_map_app, IH.
Qed.

Lemma texts_dates_body cur d cursor :
  1 <= d <= 99 -> texts (emitted (dates_body cur d cursor)) = [fmt_d d].
Proof.
  intros Hd. destruct cursor as [row col].
  rewrite emitted_dates_body by exact Hd. cbv zeta.
  destruct (d =? cur); reflexivity.
Qed.

Lemma texts_dates_draws cur first n :
  n <= 99 -> texts (dates_draws cur first n) = map fmt_d (days n).
Proof.
  intros Hn. unfold dates_draws, texts. rewrite flat_map_flat_map.
  rewrite <- flat_map_singleton. apply flat_map_ext_in.
  intros d Hd. apply in_days in Hd.
  apply (texts_dates_body cur d). lia.
Qed.

Lemma length_dates_draws cur first n :
  0 <= n <= 99 ->
  List.length (dates_draws cur first n) =
  (Z.to_nat n + count is_highlight_rect (dates_draws cur first n))%nat.
Proof.
  intros Hn.
  pose proof (count_dates_draws is_highlight_rect 1 0 cur first
                (count_highlight_rect_body cur) (Z.to_nat n) ltac:(lia))
    as Hrect.
  pose proof (count_dates_draws (fun _ => true) 2 1 cur first
                (fun d c Hd => eq_trans (count_all _)
                                 (length_dates_body cur d c Hd))
                (Z.to_nat n) ltac:(lia)) as Hall.
  rewrite count_all in Hall. rewrite Z2Nat.id in Hrect, Hall by lia.
  rewrite Hrect, Hall.
  destruct (Z.leb_spec 1 cur), (Z.leb_spec cur n); cbn [andb]; lia.
Qed.

(** ** Worked instances *)

(** A month whose 1st falls on the last weekday: day 1 sits in the last
    column of row 0 and day 2 opens row 1. *)
Example cursor_first_on_saturday :
  cursor_at 6 1 = (0, 6) /\ cursor_at 6 2 = (1, 0) /\ cursor_at 6 31 = (5, 1).
Proof. repeat split. Qed.

(** The closed form needs a weekday in 0..6: from column 10 the cursor is
    still in row 0, where the quotient would be 1. *)
Example cursor_outside_the_week :
  cursor_at 10 1 = (0, 10) /\ (grid_row 10 1, grid_col 10 1) = (1, 3).
Proof. split; reflexivity. Qed.

(** February 2024 is drawn with 29 day numbers and one highlight. *)
Example february_2024 :
  exists cmds,
    draw_calendar_dates gregorian_flag sakamoto 32 2024 2 15 [] = Done tt cmds /\
    List.length cmds = 30%nat /\
    count is_highlight_rect cmds = 1%nat.
Proof. eexists. split; [vm_compute; reflexivity | split; reflexivity]. Qed.

(** * Specification properties *)

(** C1: for a month in 1..12 whose 1st falls on weekday [first] in 0..6, the
    date loop finishes and draws each day [d] of the month with its cursor
    at row [(first + d - 1) / 7] and column [(first + d - 1) mod 7]; the
    running cursor equals this closed form, the row is in 0..5 and the
    column in 0..6. *)
Theorem draw_calendar_dates_cells
    (is_leap : Z -> Z) (day_of_week_get : Z -> Z -> Z -> Z)
    (fuel : nat) (year month current_day : Z) :
  1 <= month <= 12 ->
  is_boolean (is_leap year) ->
  0 <= get_first_day_of_month day_of_week_get year month <= 6 ->
  (31 < fuel)%nat ->
  exists n,
    get_days_in_month is_leap year month = Some n /\ n <= 31 /\
    emits (draw_calendar_dates is_leap day_of_week_get fuel year month
             current_day) tt
      (dates_draws current_day
         (get_first_day_of_month day_of_week_get year month) n) /\
    forall d, 1 <= d <= n ->
      let first := get_first_day_of_month day_of_week_get year month in
      cursor_at first d = (grid_row first d, grid_col first d) /\
      emitted (dates_body current_day d (cursor_at first d)) =
        cell_draws current_day d (grid_row first d) (grid_col first d) /\
      0 <= grid_row first d <= 5 /\ 0 <= grid_col first d <= 6.
Proof.
  intros Hm Hl Hf Hfuel.
  destruct (get_days_in_month_defined is_leap year month Hl Hm) as [n Hn].
  pose proof (get_days_in_month_range _ _ _ _ Hn) as [_ Hr].
  exists n. split; [exact Hn|]. split; [lia|]. split.
  - apply draw_calendar_dates_emits; [exact Hn | lia].
  - intros d Hd first. subst first.
    pose proof (grid_cell_bounds _ d Hf ltac:(lia)) as [Hrow Hcol].
    rewrite cursor_at_closed by lia.
    split; [reflexivity|]. split; [|split; assumption].
    apply emitted_dates_body_exact; lia.
Qed.

Lemma draw_calendar_dates_cells_witness :
  exists n,
    get_days_in_month gregorian_flag 2024 2 = Some n /\ n <= 31 /\
    emits (draw_calendar_dates gregorian_flag sakamoto 32 2024 2 15) tt
      (dates_draws 15 (get_first_day_of_month sakamoto 2024 2) n) /\
    forall d, 1 <= d <= n ->
      let first := get_first_day_of_month sakamoto 2024 2 in
      cursor_at first d = (grid_row first d, grid_col first d) /\
      emitted (dates_body 15 d (cursor_at first d)) =
        cell_draws 15 d (grid_row first d) (grid_col first d) /\
      0 <= grid_row first d <= 5 /\ 0 <= grid_col first d <= 6.
Proof.
  apply (draw_calendar_dates_cells gregorian_flag sakamoto 32 2024 2 15).
  - lia.
  - right. reflexivity.
  - vm_compute. split; discriminate.
  - lia.
Defined.

(** C2: for a month in 1..12 the date loop draws the filled rectangle and
    the white-on-black day number exactly once when [current_day] is one of
    the days of the month, and never when [current_day] is 0 or beyond the
    last day; every other day number is black on white, and nothing else is
    drawn. *)
Theorem draw_calendar_dates_highlight
    (is_leap : Z -> Z) (day_of_week_get : Z -> Z -> Z -> Z)
    (fuel : nat) (year month current_day : Z) :
  1 <= month <= 12 ->
  is_boolean (is_leap year) ->
  (31 < fuel)%nat ->
  exists n cmds,
    get_days_in_month is_leap year month = Some n /\
    emits (draw_calendar_dates is_leap day_of_week_get fuel year month
             current_day) tt cmds /\
    (1 <= current_day <= n ->
       count is_highlight_rect cmds = 1%nat /\
       count is_inverted_text cmds = 1%nat /\
       count is_plain_text cmds = Z.to_nat (n - 1)) /\
    (current_day = 0 \/ n < current_day ->
       count is_highlight_rect cmds = 0%nat /\
       count is_inverted_text cmds = 0%nat /\
       count is_plain_text cmds = Z.to_nat n) /\
    List.length cmds =
      (count is_highlight_rect cmds + count is_inverted_text cmds +
       count is_plain_text cmds)%nat.
Proof.
  intros Hm Hl Hfuel.
  destruct (get_days_in_month_defined is_leap year month Hl Hm) as [n Hn].
  pose proof (get_days_in_month_range _ _ _ _ Hn) as [_ Hr].
  set (first := get_first_day_of_month day_of_week_get year month).
  exists n, (dates_draws current_day first n).
  split; [exact Hn|]. split.
  { apply draw_calendar_dates_emits; [exact Hn | lia]. }
  pose proof (count_dates_draws is_highlight_rect 1 0 current_day first
                (count_highlight_rect_body current_day) (Z.to_nat n)
                ltac:(lia)) as Hrect.
  pose proof (count_dates_draws is_inverted_text 1 0 current_day first
                (count_inverted_text_body current_day) (Z.to_nat n)
                ltac:(lia)) as Hinv.
  pose proof (count_dates_draws is_plain_text 0 1 current_day first
                (count_plain_text_body current_day) (Z.to_nat n)
                ltac:(lia)) as Hplain.
  pose proof (count_dates_draws (fun _ => true) 2 1 current_day first
                (fun d c Hd => eq_trans (count_all _)
                                 (length_dates_body current_day d c Hd))
                (Z.to_nat n) ltac:(lia)) as Hall.
  rewrite count_all in Hall.
  rewrite Z2Nat.id in Hrect, Hinv, Hplain, Hall by lia.
  rewrite Hrect, Hinv, Hplain, Hall.
  destruct (Z.leb_spec 1 current_day), (Z.leb_spec current_day n);
    cbn [andb]; repeat split; intros; lia.
Qed.

Lemma draw_calendar_dates_highlight_witness :
  exists n cmds,
    get_days_in_month gregorian_flag 2023 2 = Some n /\
    emits (draw_calendar_dates gregorian_flag sakamoto 32 2023 2 28) tt cmds /\
    (1 <= 28 <= n ->
       count is_highlight_rect cmds = 1%nat /\
       count is_inverted_text cmds = 1%nat /\
       count is_plain_text cmds = Z.to_nat (n - 1)) /\
    (28 = 0 \/ n < 28 ->
       count is_highlight_rect cmds = 0%nat /\
       count is_inverted_text cmds = 0%nat /\
       count is_plain_text cmds = Z.to_nat n) /\
    List.length cmds =
      (count is_highlight_rect cmds + count is_inverted_text cmds +
       count is_plain_text cmds)%nat.
Proof.
  apply (draw_calendar_dates_highlight gregorian_flag sakamoto 32 2023 2 28).
  - lia.
  - left. reflexivity.
  - lia.
Defined.

(** C3: for every month in 1..12 both rows of the table hold the canonical
    Gregorian day count; the leap row is at least the other row, equal to it
    outside February and 29 against 28 in February; and [get_days_in_month]
    returns the canonical count when [is_leap] follows the Gregorian rule. *)
Theorem days_in_month_canonical (is_leap : Z -> Z) (year m : Z) :
  1 <= m <= 12 ->
  is_leap year = Z.b2z (gregorian_leap year) ->
  exists common leap,
    table_entry 0 (month_index m) = Some common /\
    table_entry 1 (month_index m) = Some leap /\
    common = canonical_days false m /\
    leap = canonical_days true m /\
    common <= leap /\
    (m <> 2 -> leap = common) /\
    (m = 2 -> common = 28 /\ leap = 29 /\ leap - common = 1) /\
    get_days_in_month is_leap year m =
      Some (canonical_days (gregorian_leap year) m).
Proof.
  intros Hm Hleap.
  assert (m = 1 \/ m = 2 \/ m = 3 \/ m = 4 \/ m = 5 \/ m = 6 \/ m = 7 \/
          m = 8 \/ m = 9 \/ m = 10 \/ m = 11 \/ m = 12) as Hc by lia.
  unfold get_days_in_month. rewrite Hleap.
  one_of m;
    (eexists; eexists;
     split; [reflexivity|]; split; [reflexivity|];
     split; [reflexivity|]; split; [reflexivity|];
     split; [discriminate|];
     split; [intros Hne; try reflexivity; now elim Hne|];
     split; [intros Heq; try discriminate Heq; now repeat split|];
     destruct (gregorian_leap year); reflexivity).
Qed.

Lemma days_in_month_canonical_witness :
  exists common leap,
    table_entry 0 (month_index 2) = Some common /\
    table_entry 1 (month_index 2) = Some leap /\
    common = canonical_days false 2 /\
    leap = canonical_days true 2 /\
    common <= leap /\
    (2 <> 2 -> leap = common) /\
    (2 = 2 -> common = 28 /\ leap = 29 /\ leap - common = 1) /\
    get_days_in_month gregorian_flag 2024 2 =
      Some (canonical_days (gregorian_leap 2024) 2).
Proof.
  apply (days_in_month_canonical gregorian_flag 2024 2).
  - lia.
  - reflexivity.
Defined.

(** C4, as the claim states it: the index for month 0 would be 255.  The
    index is computed in [int] and is -1. *)
Lemma month_zero_index_is_not_255 :
  month_index 0 = -1 /\ month_index 0 <> 255.
Proof. split; [reflexivity | discriminate]. Qed.

(** C4, amended: with a leap flag of 0 or 1 the lookup of
    [get_days_in_month] is in bounds exactly when the month is in 1..12;
    month 0 gives the index -1 and a month from 13 on an index of at least
    12, both outside the 12-entry row. *)
Theorem get_days_in_month_in_bounds (is_leap : Z -> Z) (year month : Z) :
  is_boolean (is_leap year) ->
  in_uint8 month ->
  (1 <= month <= 12 <->
   exists n, get_days_in_month is_leap year month = Some n) /\
  (month = 0 -> month_index month = -1 /\
                get_days_in_month is_leap year month = None) /\
  (13 <= month -> 12 <= month_index month /\
                  get_days_in_month is_leap year month = None).
Proof.
  intros Hl Hm.
  assert (1 <= month <= 12 <->
          exists n, get_days_in_month is_leap year month = Some n) as Hiff.
  { split.
    - now apply get_days_in_month_defined.
    - intros [n Hn]. now apply get_days_in_month_range in Hn. }
  assert (~ 1 <= month <= 12 ->
          get_days_in_month is_leap year month = None) as Hnone.
  { intros Hout.
    destruct (get_days_in_month is_leap year month) as [n|] eqn:E;
      [|reflexivity].
    exfalso. apply Hout, Hiff. now exists n. }
  split; [exact Hiff|]. unfold month_index. split.
  - intros ->. split; [reflexivity | apply Hnone; lia].
  - intros H13. split; [lia | apply Hnone; lia].
Qed.

Lemma get_days_in_month_in_bounds_witness :
  (1 <= 0 <= 12 <->
   exists n, get_days_in_month gregorian_flag 2024 0 = Some n) /\
  (0 = 0 -> month_index 0 = -1 /\
            get_days_in_month gregorian_flag 2024 0 = None) /\
  (13 <= 0 -> 12 <= month_index 0 /\
              get_days_in_month gregorian_flag 2024 0 = None).
Proof.
  apply (get_days_in_month_in_bounds gregorian_flag 2024 0).
  - right. reflexivity.
  - unfold in_uint8. lia.
Defined.

(** C5: when the decomposed time is within its contract, the page renderer
    finishes and appends, in this order and with nothing in between, the
    clear to white, the title, the seven weekday labels, the fifteen grid
    lines, the day numbers 1..n of the month with a possible highlight, and
    the footer; each group is what the corresponding renderer emits. *)
Theorem draw_calendar_page_order
    (is_leap : Z -> Z) (day_of_week_get : Z -> Z -> Z -> Z)
    (transformTime : Z -> tm_t) (YEAR0 : Z) (fuel : nat) (unix_time : Z) :
  tm_in_range (transformTime unix_time) ->
  is_boolean (is_leap (wrap16 (tm_year (transformTime unix_time) + YEAR0))) ->
  (31 < fuel)%nat ->
  let tm := transformTime unix_time in
  let year := wrap16 (tm_year tm + YEAR0) in
  let month := wrap8 (tm_mon tm + 1) in
  let current_day := wrap8 (tm_mday tm) in
  let first := get_first_day_of_month day_of_week_get year month in
  exists n title header grid dates footer,
    get_days_in_month is_leap year month = Some n /\
    emits (draw_calendar_page is_leap day_of_week_get transformTime YEAR0
             fuel unix_time) tt
      ([Paint_Clear WHITE] ++ title ++ header ++ grid ++ dates ++ footer) /\
    emits (draw_calendar_title year month) tt title /\
    title = [title_draw year month] /\
    emits (draw_week_header fuel) tt header /\
    header = header_draws 8 /\
    List.length header = 7%nat /\
    emits (draw_calendar_grid fuel) tt grid /\
    grid = grid_draws /\
    List.length grid = 15%nat /\
    emits (draw_calendar_dates is_leap day_of_week_get fuel year month
             current_day) tt dates /\
    dates = dates_draws current_day first n /\
    texts dates = map fmt_d (days n) /\
    List.length dates = (Z.to_nat n + count is_highlight_rect dates)%nat /\
    footer = [footer_draw (tm_hour tm) (tm_min tm)].
Proof.
  intros (Hmon & Hh & Hmin) Hl Hfuel tm year month current_day first.
  change (0 <= tm_mon tm <= 11) in Hmon.
  change (0 <= tm_hour tm <= 23) in Hh.
  change (0 <= tm_min tm <= 59) in Hmin.
  change (is_boolean (is_leap year)) in Hl.
  assert (month = tm_mon tm + 1) as Emonth
    by (unfold month; apply wrap8_small; lia).
  destruct (get_days_in_month_defined is_leap year month Hl ltac:(lia))
    as [n Hn].
  pose proof (get_days_in_month_range _ _ _ _ Hn) as [_ Hr].
  exists n, [title_draw year month], (header_draws 8), grid_draws,
    (dates_draws current_day first n),
    [footer_draw (tm_hour tm) (tm_min tm)].
  split; [exact Hn|].
  split.
  { apply (draw_calendar_page_emits is_leap day_of_week_get transformTime
             YEAR0 fuel unix_time n); assumption. }
  split.
  { apply draw_calendar_title_emits; [apply wrap16_range | apply wrap8_range]. }
  split; [reflexivity|].
  split; [apply draw_week_header_emits; lia|].
  split; [reflexivity|]. split; [reflexivity|].
  split; [apply draw_calendar_grid_emits; lia|].
  split; [reflexivity|]. split; [reflexivity|].
  split; [apply draw_calendar_dates_emits; [exact Hn | lia]|].
  split; [reflexivity|].
  split; [apply texts_dates_draws; lia|].
  split; [apply length_dates_draws; lia | reflexivity].
Qed.

Lemma draw_calendar_page_order_witness :
  let tm := fixed_time 0 in
  let year := wrap16 (tm_year tm + 1970) in
  let month := wrap8 (tm_mon tm + 1) in
  let current_day := wrap8 (tm_mday tm) in
  let first := get_first_day_of_month sakamoto year month in
  exists n title header grid dates footer,
    get_days_in_month gregorian_flag year month = Some n /\
    emits (draw_calendar_page gregorian_flag sakamoto fixed_time 1970 32 0) tt
      ([Paint_Clear WHITE] ++ title ++ header ++ grid ++ dates ++ footer) /\
    emits (draw_calendar_title year month) tt title /\
    title = [title_draw year month] /\
    emits (draw_week_header 32) tt header /\
    header = header_draws 8 /\
    List.length header = 7%nat /\
    emits (draw_calendar_grid 32) tt grid /\
    grid = grid_draws /\
    List.length grid = 15%nat /\
    emits (draw_calendar_dates gregorian_flag sakamoto 32 year month
             current_day) tt dates /\
    dates = dates_draws current_day first n /\
    texts dates = map fmt_d (days n) /\
    List.length dates = (Z.to_nat n + count is_highlight_rect dates)%nat /\
    footer = [footer_draw (tm_hour tm) (tm_min tm)].
Proof.
  apply (draw_calendar_page_order gregorian_flag sakamoto fixed_time 1970 32 0).
  - unfold tm_in_range, fixed_time. cbn. lia.
  - right. reflexivity.
  - lia.
Defined.

(** C6: the grid renderer draws the 7 horizontal lines at
    [y = y_start + i * cell_height], [i] in 0..6, from [x_start] to
    [x_start + 7 * cell_width], then the 8 vertical lines at
    [x = x_start + i * cell_width], [i] in 0..7, from [y_start] to
    [y_start + 6 * cell_height], and nothing else, with [x_start = 10],
    [y_start = 40], [cell_width = 28] and [cell_height = 12]. *)
Theorem draw_calendar_grid_lines (fuel : nat) :
  (8 < fuel)%nat ->
  emits (draw_calendar_grid fuel) tt
    (map horizontal_line (seq 0 7) ++ map vertical_line (seq 0 8)) /\
  List.length (map horizontal_line (seq 0 7)) = 7%nat /\
  List.length (map vertical_line (seq 0 8)) = 8%nat /\
  (forall i,
     horizontal_line i =
     Paint_DrawLine 10 (40 + Z.of_nat i * 12) (10 + 7 * 28)
       (40 + Z.of_nat i * 12) BLACK DOT_PIXEL_1X1 LINE_STYLE_SOLID) /\
  (forall i,
     vertical_line i =
     Paint_DrawLine (10 + Z.of_nat i * 28) 40 (10 + Z.of_nat i * 28)
       (40 + 6 * 12) BLACK DOT_PIXEL_1X1 LINE_STYLE_SOLID).
Proof.
  intros Hfuel. split; [now apply draw_calendar_grid_emits|].
  repeat split.
Qed.

Lemma draw_calendar_grid_lines_witness :
  emits (draw_calendar_grid 9) tt
    (map horizontal_line (seq 0 7) ++ map vertical_line (seq 0 8)) /\
  List.length (map horizontal_line (seq 0 7)) = 7%nat /\
  List.length (map vertical_line (seq 0 8)) = 8%nat /\
  (forall i,
     horizontal_line i =
     Paint_DrawLine 10 (40 + Z.of_nat i * 12) (10 + 7 * 28)
       (40 + Z.of_nat i * 12) BLACK DOT_PIXEL_1X1 LINE_STYLE_SOLID) /\
  (forall i,
     vertical_line i =
     Paint_DrawLine (10 + Z.of_nat i * 28) 40 (10 + Z.of_nat i * 28)
       (40 + 6 * 12) BLACK DOT_PIXEL_1X1 LINE_STYLE_SOLID).
Proof. apply (draw_calendar_grid_lines 9). lia. Defined.

(** C7, as the claim states it: the labels would sit at
    [x_start + i * cell_width].  The header does not emit those draws; its
    first label is at x = 18, not 10. *)
Lemma week_header_not_at_column_edge :
  ~ emits (draw_week_header 8) tt (header_draws 0).
Proof.
  intros H. specialize (H []). vm_compute in H. discriminate H.
Qed.

(** C7, amended: the header renderer issues exactly seven text draws, one
    per weekday label in index order, the [i]-th at
    [x = x_start + i * cell_width + 8] and [y = 25]. *)
Theorem draw_week_header_labels (fuel : nat) :
  (7 < fuel)%nat ->
  emits (draw_week_header fuel) tt (header_draws 8) /\
  List.length (header_draws 8) = 7%nat /\
  List.length week_names_cn = 7%nat /\
  forall i, (i < 7)%nat ->
    nth_error (header_draws 8) i =
    Some (EPD_DrawUTF8 (10 + Z.of_nat i * 28 + 8) 25 0
            (nth i week_names_cn "") EPD_ASCII_7X12
            (Some EPD_FontUTF8_16x16) BLACK WHITE).
Proof.
  intros Hfuel. split; [now apply draw_week_header_emits|].
  split; [reflexivity|]. split; [reflexivity|].
  intros i Hi.
  do 7 (destruct i as [|i]; [reflexivity|]). lia.
Qed.

Lemma draw_week_header_labels_witness :
  emits (draw_week_header 8) tt (header_draws 8) /\
  List.length (header_draws 8) = 7%nat /\
  List.length week_names_cn = 7%nat /\
  forall i, (i < 7)%nat ->
    nth_error (header_draws 8) i =
    Some (EPD_DrawUTF8 (10 + Z.of_nat i * 28 + 8) 25 0
            (nth i week_names_cn "") EPD_ASCII_7X12
            (Some EPD_FontUTF8_16x16) BLACK WHITE).
Proof. apply (draw_week_header_labels 8). lia. Defined.

(** C8: the grid, header and title renderers append a command list that
    depends on their arguments only, whatever the canvas holds; two calls in
    a row append that list twice. *)
Theorem renderers_repeatable (fuel : nat) (year month : Z) :
  in_uint16 year -> in_uint8 month -> (8 < fuel)%nat ->
  exists title header grid,
    emits (draw_calendar_title year month) tt title /\
    emits (draw_week_header fuel) tt header /\
    emits (draw_calendar_grid fuel) tt grid /\
    emits (draw_calendar_title year month;; draw_calendar_title year month)
          tt (title ++ title) /\
    emits (draw_week_header fuel;; draw_week_header fuel) tt
          (header ++ header) /\
    emits (draw_calendar_grid fuel;; draw_calendar_grid fuel) tt
          (grid ++ grid) /\
    forall c1 c2 : canvas,
      draw_calendar_title year month c1 = Done tt (c1 ++ title) /\
      draw_calendar_title year month c2 = Done tt (c2 ++ title) /\
      draw_week_header fuel c1 = Done tt (c1 ++ header) /\
      draw_week_header fuel c2 = Done tt (c2 ++ header) /\
      draw_calendar_grid fuel c1 = Done tt (c1 ++ grid) /\
      draw_calendar_grid fuel c2 = Done tt (c2 ++ grid).
Proof.
  intros Hy Hm Hfuel.
  pose proof (draw_calendar_title_emits year month Hy Hm) as Ht.
  pose proof (draw_week_header_emits fuel ltac:(lia)) as Hh.
  pose proof (draw_calendar_grid_emits fuel Hfuel) as Hg.
  exists [title_draw year month], (header_draws 8), grid_draws.
  repeat split; try assumption; try (now apply emits_twice);
    try apply Ht; try apply Hh; try apply Hg.
Qed.

Lemma renderers_repeatable_witness :
  exists title header grid,
    emits (draw_calendar_title 2024 2) tt title /\
    emits (draw_week_header 9) tt header /\
    emits (draw_calendar_grid 9) tt grid /\
    emits (draw_calendar_title 2024 2;; draw_calendar_title 2024 2)
          tt (title ++ title) /\
    emits (draw_week_header 9;; draw_week_header 9) tt (header ++ header) /\
    emits (draw_calendar_grid 9;; draw_calendar_grid 9) tt (grid ++ grid) /\
    forall c1 c2 : canvas,
      draw_calendar_title 2024 2 c1 = Done tt (c1 ++ title) /\
      draw_calendar_title 2024 2 c2 = Done tt (c2 ++ title) /\
      draw_week_header 9 c1 = Done tt (c1 ++ header) /\
      draw_week_header 9 c2 = Done tt (c2 ++ header) /\
      draw_calendar_grid 9 c1 = Done tt (c1 ++ grid) /\
      draw_calendar_grid 9 c2 = Done tt (c2 ++ grid).
Proof.
  apply (renderers_repeatable 9 2024 2).
  - unfold in_uint16. lia.
  - unfold in_uint8. lia.
  - lia.
Defined.

(** C9: when the 1st falls on a weekday in 0..6, every coordinate that the
    header, grid and date renderers pass on is the value of its formula in
    exact integer arithmetic and lies in 0..206, so no conversion to
    [uint8_t] wraps; 206 is reached by the grid. *)
Theorem coordinates_do_not_wrap
    (is_leap : Z -> Z) (day_of_week_get : Z -> Z -> Z -> Z)
    (fuel : nat) (year month current_day n : Z) :
  get_days_in_month is_leap year month = Some n ->
  0 <= get_first_day_of_month day_of_week_get year month <= 6 ->
  (31 < fuel)%nat ->
  let first := get_first_day_of_month day_of_week_get year month in
  let dates :=
    flat_map (fun d => cell_draws current_day d (grid_row first d)
                         (grid_col first d)) (days n) in
  n <= 31 /\
  emits (draw_week_header fuel) tt (header_draws 8) /\
  emits (draw_calendar_grid fuel) tt grid_draws /\
  emits (draw_calendar_dates is_leap day_of_week_get fuel year month
           current_day) tt dates /\
  Forall (fun z => 0 <= z <= 206)
         (coords (header_draws 8 ++ grid_draws ++ dates)) /\
  In 206 (coords grid_draws) /\
  206 = Layout.x_start + Layout.grid_width.
Proof.
  intros Hn Hf Hfuel first dates.
  pose proof (get_days_in_month_range _ _ _ _ Hn) as [_ Hr].
  split; [lia|].
  split; [apply draw_week_header_emits; lia|].
  split; [apply draw_calendar_grid_emits; lia|].
  split.
  { eapply emits_eq.
    - apply draw_calendar_dates_emits; [exact Hn | lia].
    - apply dates_draws_exact; [exact Hf | lia]. }
  split.
  { unfold coords. rewrite !flat_map_app, !Forall_app.
    split; [apply header_draws_coords|].
    split; [apply grid_draws_coords|].
    apply (Forall_coords (fun z => 0 <= z <= 206)).
    intros d Hd. apply in_days in Hd.
    pose proof (grid_cell_bounds first d Hf ltac:(lia)) as [Hrow Hcol].
    now apply cell_draws_coords. }
  split; [|reflexivity].
  vm_compute. tauto.
Qed.

Lemma coordinates_do_not_wrap_witness :
  let first := get_first_day_of_month sakamoto 2024 2 in
  let dates :=
    flat_map (fun d => cell_draws 15 d (grid_row first d) (grid_col first d))
             (days 29) in
  29 <= 31 /\
  emits (draw_week_header 32) tt (header_draws 8) /\
  emits (draw_calendar_grid 32) tt grid_draws /\
  emits (draw_calendar_dates gregorian_flag sakamoto 32 2024 2 15) tt dates /\
  Forall (fun z => 0 <= z <= 206)
         (coords (header_draws 8 ++ grid_draws ++ dates)) /\
  In 206 (coords grid_draws) /\
  206 = Layout.x_start + Layout.grid_width.
Proof.
  apply (coordinates_do_not_wrap gregorian_flag sakamoto 32 2024 2 15 29).
  - reflexivity.
  - vm_compute. split; discriminate.
  - lia.
Defined.

(** C10: formatting the day into the 3-byte [day_buf] never runs past the
    buffer, whatever the arguments; every day the loop formats is in 1..31,
    the largest entry of the table, and its text takes at most 2 characters
    and the NUL. *)
Theorem day_buf_never_overflows
    (is_leap : Z -> Z) (day_of_week_get : Z -> Z -> Z -> Z)
    (fuel : nat) (year month current_day : Z) (c : canvas) :
  draw_calendar_dates is_leap day_of_week_get fuel year month current_day c
    <> Undefined BufferOverflow /\
  forall n, get_days_in_month is_leap year month = Some n ->
    n <= 31 /\
    forall d, 1 <= d <= n ->
      (String.length (fmt_d d) + 1 <= 3)%nat /\
      sprintf 3 (fmt_d d) c = Done (fmt_d d) c /\
      Forall (fits 3)
        (emitted (dates_body current_day d
           (cursor_at (get_first_day_of_month day_of_week_get year month) d))).
Proof.
  split.
  - unfold draw_calendar_dates, bind.
    destruct (get_days_in_month is_leap year month) as [n|] eqn:Hn;
      cbn [value_of]; [|discriminate].
    pose proof (get_days_in_month_range _ _ _ _ Hn) as [_ Hr].
    unfold ret at 1.
    assert (forall fuel day s c',
               1 <= day ->
               for_uint8 fuel (fun day => day <=? n)
                 (dates_body current_day) day s c'
               <> Undefined BufferOverflow) as Hloop.
    { clear fuel c. induction fuel as [|fuel IH]; intros day s c' Hday;
        cbn [for_uint8]; [discriminate|].
      destruct (Z.leb_spec day n) as [Hle|Hgt]; [|discriminate].
      unfold bind. rewrite (dates_body_emits current_day day s) by lia.
      rewrite wrap8_small by lia. apply IH. lia. }
    specialize (Hloop fuel 1
                  (0, get_first_day_of_month day_of_week_get year month) c
                  ltac:(lia)).
    destruct (for_uint8 fuel _ _ 1 _ c) as [a c'|f|];
      [discriminate | congruence | discriminate].
  - intros n Hn. pose proof (get_days_in_month_range _ _ _ _ Hn) as [_ Hr].
    split; [lia|]. intros d Hd.
    pose proof (day_buf_fits d ltac:(lia)) as Hfit.
    split; [apply Nat.leb_le, Hfit|].
    split; [unfold sprintf; now rewrite Hfit|].
    destruct (cursor_at _ d) as [row col].
    rewrite emitted_dates_body by lia. cbv zeta.
    apply Nat.leb_le in Hfit.
    assert (forall x y fg bg,
               fits 3 (EPD_DrawUTF8 x y 0 (fmt_d d) EPD_ASCII_7X12 None fg bg))
      as Htext.
    { intros x y fg bg s Hs. cbn [cmd_text] in Hs.
      injection Hs as <-. exact Hfit. }
    destruct (d =? current_day).
    + apply Forall_cons; [intros s Hs; discriminate Hs|].
      apply Forall_cons; [apply Htext | apply Forall_nil].
    + apply Forall_cons; [apply Htext | apply Forall_nil].
Qed.

Lemma day_buf_never_overflows_witness :
  draw_calendar_dates gregorian_flag sakamoto 32 2024 12 31 []
    <> Undefined BufferOverflow /\
  (31 <= 31 /\
   forall d, 1 <= d <= 31 ->
     (String.length (fmt_d d) + 1 <= 3)%nat /\
     sprintf 3 (fmt_d d) [] = Done (fmt_d d) [] /\
     Forall (fits 3)
       (emitted (dates_body 31 d
          (cursor_at (get_first_day_of_month sakamoto 2024 12) d)))).
Proof.
  destruct (day_buf_never_overflows gregorian_flag sakamoto 32 2024 12 31 [])
    as [Hno Hfit].
  split; [exact Hno|]. apply (Hfit 31). reflexivity.
Defined.

(** * Further properties of the renderer *)

Lemma bind_emits {A B} (m : M A) (k : A -> M B) a l c :
  emits m a l -> bind m k c = k a (c ++ l).
Proof. intros H. unfold bind. now rewrite H. Qed.

Lemma anchors_cell_draws cur d row col :
  anchors (cell_draws cur d row col) =
  [(column_edge col + 8, row_edge row + 2)].
Proof. unfold cell_draws. cbv zeta. destruct (d =? cur); reflexivity. Qed.

Lemma days_NoDup n : NoDup (days n).
Proof.
  unfold days. apply NoDup_map_NoDup_ForallPairs; [|apply seq_NoDup].
  intros a b _ _ H. lia.
Qed.

(** The cursor after [k] steps from column [c] of row [r]. *)
Lemma iter_advance_from r c k :
  0 <= r -> 0 <= c <= 6 -> r + (c + Z.of_nat k) / 7 <= 255 ->
  Nat.iter k advance (r, c) =
  (r + (c + Z.of_nat k) / 7, (c + Z.of_nat k) mod 7).
Proof.
  intros Hr Hc. induction k as [|k IH]; intros Hk.
  - change (Nat.iter 0 advance (r, c)) with (r, c).
    rewrite Z.add_0_r, Z.div_small, Z.mod_small by lia.
    f_equal. lia.
  - assert (0 <= (c + Z.of_nat k) mod 7 < 7) as Hm
      by (apply Z.mod_pos_bound; lia).
    assert (0 <= (c + Z.of_nat k) / 7) as Hq by (apply Z.div_pos; lia).
    assert ((c + Z.of_nat k) / 7 <= (c + Z.of_nat (Datatypes.S k)) / 7) as Hmono
      by (apply Z.div_le_mono; lia).
    rewrite Nat.iter_succ, IH by lia. unfold advance.
    rewrite wrap8_small by lia.
    destruct (Z.leb_spec 7 ((c + Z.of_nat k) mod 7 + 1)) as [H7|H7].
    + assert ((c + Z.of_nat (Datatypes.S k)) / 7 = (c + Z.of_nat k) / 7 + 1)
        as E by (Z.div_mod_to_equations; lia).
      rewrite wrap8_small by lia. f_equal; [lia|].
      Z.div_mod_to_equations; lia.
    + f_equal; Z.div_mod_to_equations; lia.
Qed.

(** X1: the lookup of [get_days_in_month] is defined exactly when the leap
    flag, converted to [uint8_t], is 0 or 1 and the month is in 1..12. *)
Theorem get_days_in_month_defined_iff (is_leap : Z -> Z) (year month : Z) :
  (exists n, get_days_in_month is_leap year month = Some n) <->
  (0 <= wrap8 (is_leap year) <= 1 /\ 1 <= month <= 12).
Proof.
  unfold get_days_in_month, month_index. split.
  - intros [n Hn]. apply table_entry_range in Hn. lia.
  - intros [Hl Hm]. apply table_entry_defined; lia.
Qed.

(** X2: the page logs the clear, the title, the header and the grid and
    then runs the date renderer and the footer on that canvas; when the
    lookup of the month length is out of bounds the date renderer is
    undefined on every canvas and for every current day, and the page ends
    in that out-of-bounds access. *)
Theorem draw_calendar_page_month_out_of_range
    (is_leap : Z -> Z) (day_of_week_get : Z -> Z -> Z -> Z)
    (transformTime : Z -> tm_t) (YEAR0 : Z) (fuel : nat) (unix_time : Z)
    (c : canvas) :
  (8 < fuel)%nat ->
  let tm := transformTime unix_time in
  let year := wrap16 (tm_year tm + YEAR0) in
  let month := wrap8 (tm_mon tm + 1) in
  draw_calendar_page is_leap day_of_week_get transformTime YEAR0 fuel
    unix_time c =
  (draw_calendar_dates is_leap day_of_week_get fuel year month
     (wrap8 (tm_mday tm));;
   time_buf <- sprintf 20
                 (fmt_02d (tm_hour tm) ++ ":" ++ fmt_02d (tm_min tm))%string;;
   emit (EPD_DrawUTF8 150 115 1 time_buf EPD_ASCII_11X16
           (Some EPD_FontUTF8_16x16) BLACK WHITE))
    (c ++ Paint_Clear WHITE :: title_draw year month ::
          header_draws 8 ++ grid_draws) /\
  (get_days_in_month is_leap year month = None ->
   draw_calendar_page is_leap day_of_week_get transformTime YEAR0 fuel
     unix_time c = Undefined OutOfBounds /\
   forall current_day c',
     draw_calendar_dates is_leap day_of_week_get fuel year month
       current_day c' = Undefined OutOfBounds).
Proof.
  intros Hfuel tm year month.
  assert (draw_calendar_page is_leap day_of_week_get transformTime YEAR0 fuel
            unix_time c =
          (draw_calendar_dates is_leap day_of_week_get fuel year month
             (wrap8 (tm_mday tm));;
           time_buf <- sprintf 20
                         (fmt_02d (tm_hour tm) ++ ":" ++
                          fmt_02d (tm_min tm))%string;;
           emit (EPD_DrawUTF8 150 115 1 time_buf EPD_ASCII_11X16
                   (Some EPD_FontUTF8_16x16) BLACK WHITE))
            (c ++ Paint_Clear WHITE :: title_draw year month ::
                  header_draws 8 ++ grid_draws)) as Hpage.
  { subst tm year month. unfold draw_calendar_page.
    rewrite (bind_emits _ _ _ _ _ (emits_emit _)).
    rewrite (bind_emits _ _ _ _ _
               (draw_calendar_title_emits _ _ (wrap16_range _)
                  (wrap8_range _))).
    rewrite (bind_emits _ _ _ _ _ (draw_week_header_emits fuel ltac:(lia))).
    rewrite (bind_emits _ _ _ _ _ (draw_calendar_grid_emits fuel Hfuel)).
    rewrite <- !app_assoc. reflexivity. }
  split; [exact Hpage|].
  intros Hnone.
  assert (forall current_day c',
             draw_calendar_dates is_leap day_of_week_get fuel year month
               current_day c' = Undefined OutOfBounds) as Hdates.
  { intros cur c'. unfold draw_calendar_dates, bind. now rewrite Hnone. }
  split; [|exact Hdates].
  rewrite Hpage. unfold bind at 1. now rewrite Hdates.
Qed.

Lemma draw_calendar_page_month_out_of_range_witness :
  let tm := month_13_time 0 in
  let year := wrap16 (tm_year tm + 1970) in
  let month := wrap8 (tm_mon tm + 1) in
  draw_calendar_page gregorian_flag sakamoto month_13_time 1970 9 0 [] =
  (draw_calendar_dates gregorian_flag sakamoto 9 year month
     (wrap8 (tm_mday tm));;
   time_buf <- sprintf 20
                 (fmt_02d (tm_hour tm) ++ ":" ++ fmt_02d (tm_min tm))%string;;
   emit (EPD_DrawUTF8 150 115 1 time_buf EPD_ASCII_11X16
           (Some EPD_FontUTF8_16x16) BLACK WHITE))
    ([] ++ Paint_Clear WHITE :: title_draw year month ::
           header_draws 8 ++ grid_draws) /\
  draw_calendar_page gregorian_flag sakamoto month_13_time 1970 9 0 []
    = Undefined OutOfBounds /\
  forall current_day c',
    draw_calendar_dates gregorian_flag sakamoto 9
      (wrap16 (tm_year (month_13_time 0) + 1970))
      (wrap8 (tm_mon (month_13_time 0) + 1)) current_day c'
    = Undefined OutOfBounds.
Proof.
  destruct (draw_calendar_page_month_out_of_range
              gregorian_flag sakamoto month_13_time 1970 9 0 [] ltac:(lia))
    as [Hpage Hout].
  split; [exact Hpage|]. apply Hout. reflexivity.
Defined.

(** X3: the day numbers are drawn in increasing order: the texts the date
    renderer draws are the decimal renderings of 1, 2, ..., n. *)
Theorem draw_calendar_dates_texts
    (is_leap : Z -> Z) (day_of_week_get : Z -> Z -> Z -> Z)
    (fuel : nat) (year month current_day n : Z) :
  get_days_in_month is_leap year month = Some n ->
  (31 < fuel)%nat ->
  exists cmds,
    emits (draw_calendar_dates is_leap day_of_week_get fuel year month
             current_day) tt cmds /\
    texts cmds = map fmt_d (days n).
Proof.
  intros Hn Hfuel. pose proof (get_days_in_month_range _ _ _ _ Hn) as [_ Hr].
  eexists. split; [apply draw_calendar_dates_emits; [exact Hn | lia]|].
  unfold dates_draws, texts. rewrite flat_map_flat_map.
  rewrite <- flat_map_singleton. apply flat_map_ext_in.
  intros d Hd. apply in_days in Hd.
  apply (texts_dates_body current_day d). lia.
Qed.

Lemma draw_calendar_dates_texts_witness :
  exists cmds,
    emits (draw_calendar_dates gregorian_flag sakamoto 32 2023 2 28) tt cmds /\
    texts cmds = map fmt_d (days 28).
Proof.
  apply (draw_calendar_dates_texts gregorian_flag sakamoto 32 2023 2 28 28).
  - reflexivity.
  - lia.
Defined.

(** X4: with the 1st on a weekday in 0..6 no two day numbers are drawn at
    the same position. *)
Theorem draw_calendar_dates_no_overlap
    (is_leap : Z -> Z) (day_of_week_get : Z -> Z -> Z -> Z)
    (fuel : nat) (year month current_day n : Z) :
  get_days_in_month is_leap year month = Some n ->
  0 <= get_first_day_of_month day_of_week_get year month <= 6 ->
  (31 < fuel)%nat ->
  exists cmds,
    emits (draw_calendar_dates is_leap day_of_week_get fuel year month
             current_day) tt cmds /\
    List.length (anchors cmds) = Z.to_nat n /\
    NoDup (anchors cmds).
Proof.
  intros Hn Hf Hfuel. pose proof (get_days_in_month_range _ _ _ _ Hn) as [_ Hr].
  set (first := get_first_day_of_month day_of_week_get year month) in *.
  exists (dates_draws current_day first n).
  split; [apply draw_calendar_dates_emits; [exact Hn | lia]|].
  rewrite dates_draws_exact by lia.
  unfold anchors. rewrite flat_map_flat_map.
  assert (flat_map
            (fun d =>
               flat_map (fun c => match c with
                                  | EPD_DrawUTF8 x y _ _ _ _ _ _ => [(x, y)]
                                  | _ => []
                                  end)
                 (cell_draws current_day d (grid_row first d)
                    (grid_col first d))) (days n) =
          map (fun d => (column_edge (grid_col first d) + 8,
                         row_edge (grid_row first d) + 2)) (days n)) as ->.
  { rewrite <- flat_map_singleton. apply flat_map_ext. intros d.
    apply anchors_cell_draws. }
  split.
  - rewrite length_map. unfold days. now rewrite length_map, length_seq.
  - apply NoDup_map_NoDup_ForallPairs; [|apply days_NoDup].
    intros a b Ha Hb E. apply in_days in Ha, Hb.
    injection E as Ex Ey.
    unfold column_edge, row_edge, Layout.x_start, Layout.y_start,
      Layout.cell_width, Layout.cell_height, grid_row, grid_col in Ex, Ey.
    Z.div_mod_to_equations. lia.
Qed.

Lemma draw_calendar_dates_no_overlap_witness :
  exists cmds,
    emits (draw_calendar_dates gregorian_flag sakamoto 32 2024 12 31) tt cmds /\
    List.length (anchors cmds) = Z.to_nat 31 /\
    NoDup (anchors cmds).
Proof.
  apply (draw_calendar_dates_no_overlap gregorian_flag sakamoto 32 2024 12 31 31).
  - reflexivity.
  - vm_compute. split; discriminate.
  - lia.
Defined.

(** X5: each day number is drawn in the column of its weekday: its text
    starts at the x-coordinate of the header label of weekday
    [(first + d - 1) mod 7]. *)
Theorem day_number_under_weekday_label
    (fuel : nat) (current_day first d : Z) :
  0 <= first <= 6 -> 1 <= d <= 31 -> (7 < fuel)%nat ->
  exists x y,
    anchors (emitted (dates_body current_day d (cursor_at first d)))
      = [(x, y)] /\
    nth_error (anchors (emitted (draw_week_header fuel)))
              (Z.to_nat (grid_col first d)) = Some (x, 25).
Proof.
  intros Hf Hd Hfuel.
  pose proof (grid_cell_bounds first d Hf Hd) as [Hrow Hcol].
  rewrite cursor_at_closed by assumption.
  rewrite emitted_dates_body_exact by lia.
  rewrite (emits_emitted _ _ _ (draw_week_header_emits fuel Hfuel)).
  rewrite anchors_cell_draws.
  do 2 eexists. split; [reflexivity|].
  assert (grid_col first d = 0 \/ grid_col first d = 1 \/
          grid_col first d = 2 \/ grid_col first d = 3 \/
          grid_col first d = 4 \/ grid_col first d = 5 \/
          grid_col first d = 6) as Hc by lia.
  repeat (destruct Hc as [-> | Hc]); try rewrite Hc; reflexivity.
Qed.

Lemma day_number_under_weekday_label_witness :
  exists x y,
    anchors (emitted (dates_body 15 15 (cursor_at 4 15))) = [(x, y)] /\
    nth_error (anchors (emitted (draw_week_header 8)))
              (Z.to_nat (grid_col 4 15)) = Some (x, 25).
Proof.
  apply (day_number_under_weekday_label 8 15 4 15); lia.
Defined.

(** X6: with the 1st on a weekday in 0..6, everything drawn for day [d] (the
    text anchor and, on the current day, both corners of the filled
    rectangle) lies strictly between the grid lines around the cell of the
    day, so the highlight never paints over a grid line. *)
Theorem day_draws_inside_cell (fuel : nat) (current_day first d : Z) :
  0 <= first <= 6 -> 1 <= d <= 31 -> (8 < fuel)%nat ->
  Forall (in_cell (grid_row first d) (grid_col first d))
         (points (emitted (dates_body current_day d (cursor_at first d)))) /\
  (forall i, (i < 7)%nat ->
     exists x0 x1,
       nth_error (emitted (draw_calendar_grid fuel)) i =
       Some (Paint_DrawLine x0 (row_edge (Z.of_nat i)) x1
               (row_edge (Z.of_nat i)) BLACK DOT_PIXEL_1X1
               LINE_STYLE_SOLID)) /\
  (forall i, (i < 8)%nat ->
     exists y0 y1,
       nth_error (emitted (draw_calendar_grid fuel)) (7 + i) =
       Some (Paint_DrawLine (column_edge (Z.of_nat i)) y0
               (column_edge (Z.of_nat i)) y1 BLACK DOT_PIXEL_1X1
               LINE_STYLE_SOLID)).
Proof.
  intros Hf Hd Hfuel.
  pose proof (grid_cell_bounds first d Hf Hd) as [Hrow Hcol].
  rewrite cursor_at_closed by assumption.
  rewrite emitted_dates_body_exact by lia.
  rewrite (emits_emitted _ _ _ (draw_calendar_grid_emits fuel Hfuel)).
  split; [|split].
  - unfold cell_draws, points, in_cell, column_edge, row_edge,
      Layout.x_start, Layout.y_start, Layout.cell_width, Layout.cell_height.
    cbv zeta.
    destruct (d =? current_day); cbn [flat_map cmd_points app fst snd];
      repeat (apply Forall_cons; [cbn [fst snd]; lia|]); apply Forall_nil.
  - intros i Hi. do 2 eexists.
    do 7 (destruct i as [|i]; [reflexivity|]). lia.
  - intros i Hi. do 2 eexists.
    do 8 (destruct i as [|i]; [reflexivity|]). lia.
Qed.

Lemma day_draws_inside_cell_witness :
  Forall (in_cell (grid_row 6 31) (grid_col 6 31))
         (points (emitted (dates_body 31 31 (cursor_at 6 31)))) /\
  (forall i, (i < 7)%nat ->
     exists x0 x1,
       nth_error (emitted (draw_calendar_grid 9)) i =
       Some (Paint_DrawLine x0 (row_edge (Z.of_nat i)) x1
               (row_edge (Z.of_nat i)) BLACK DOT_PIXEL_1X1
               LINE_STYLE_SOLID)) /\
  (forall i, (i < 8)%nat ->
     exists y0 y1,
       nth_error (emitted (draw_calendar_grid 9)) (7 + i) =
       Some (Paint_DrawLine (column_edge (Z.of_nat i)) y0
               (column_edge (Z.of_nat i)) y1 BLACK DOT_PIXEL_1X1
               LINE_STYLE_SOLID)).
Proof.
  apply (day_draws_inside_cell 9 31 6 31); lia.
Defined.

(** X7: when the weekday computation leaves 0..6 only day 1 is misplaced:
    it is drawn at column [first] of row 0, and the increment brings the
    cursor back to column 0, so from day 2 on the days fill the columns
    0..6 in order, starting in row 1 (in row 0 when [first] is 255, where
    the increment of the [uint8_t] column wraps to 0). *)
Theorem cursor_after_weekday_out_of_range (first d : Z) :
  7 <= first <= 255 -> 2 <= d <= 31 ->
  cursor_at first 1 = (0, first) /\
  cursor_at first d =
    ((if first =? 255 then 0 else 1) + (d - 2) / 7, (d - 2) mod 7) /\
  0 <= fst (cursor_at first d) <= 5 /\ 0 <= snd (cursor_at first d) <= 6.
Proof.
  intros Hf Hd. split; [reflexivity|].
  assert (cursor_at first d =
          ((if first =? 255 then 0 else 1) + (d - 2) / 7, (d - 2) mod 7)) as E.
  { unfold cursor_at.
    replace (Z.to_nat (d - 1)) with (Datatypes.S (Z.to_nat (d - 2))) by lia.
    rewrite Nat.iter_succ_r.
    assert (advance (0, first) = ((if first =? 255 then 0 else 1), 0)) as ->.
    { unfold advance. destruct (Z.eqb_spec first 255) as [->|Hne];
        [reflexivity|].
      rewrite wrap8_small by lia.
      destruct (Z.leb_spec 7 (first + 1)); [reflexivity | lia]. }
    rewrite iter_advance_from.
    - rewrite Z2Nat.id by lia. reflexivity.
    - destruct (first =? 255); lia.
    - lia.
    - rewrite Z2Nat.id by lia.
      destruct (first =? 255); Z.div_mod_to_equations; lia. }
  split; [exact E|]. rewrite E. cbn [fst snd].
  destruct (first =? 255); Z.div_mod_to_equations; lia.
Qed.

Lemma cursor_after_weekday_out_of_range_witness :
  cursor_at 10 1 = (0, 10) /\
  cursor_at 10 31 =
    ((if 10 =? 255 then 0 else 1) + (31 - 2) / 7, (31 - 2) mod 7) /\
  0 <= fst (cursor_at 10 31) <= 5 /\ 0 <= snd (cursor_at 10 31) <= 6.
Proof.
  apply (cursor_after_weekday_out_of_range 10 31); lia.
Defined.

(** X8: the title never runs past the 20 bytes of [title_buf]: for every
    [uint16_t] year and [uint8_t] month the text and its NUL take at most
    15 bytes, and the title renderer issues exactly one text draw at
    (50, 2). *)
Theorem title_buf_never_overflows (year month : Z) (c : canvas) :
  in_uint16 year -> in_uint8 month ->
  (String.length (fmt_d year ++ "年" ++ fmt_d month ++ "月")%string + 1
   <= 15)%nat /\
  draw_calendar_title year month c =
  Done tt (c ++ [EPD_DrawUTF8 50 2 1
                   (fmt_d year ++ "年" ++ fmt_d month ++ "月")%string
                   EPD_ASCII_11X16 (Some EPD_FontUTF8_16x16) BLACK WHITE]).
Proof.
  intros Hy Hm. split.
  - rewrite !length_append.
    pose proof (fmt_d_uint16 year Hy). pose proof (fmt_d_uint8 month Hm).
    cbn [String.length]. lia.
  - apply (draw_calendar_title_emits year month Hy Hm).
Qed.

Lemma title_buf_never_overflows_witness :
  (String.length (fmt_d 65535 ++ "年" ++ fmt_d 255 ++ "月")%string + 1
   <= 15)%nat /\
  draw_calendar_title 65535 255 [] =
  Done tt ([] ++ [EPD_DrawUTF8 50 2 1
                    (fmt_d 65535 ++ "年" ++ fmt_d 255 ++ "月")%string
                    EPD_ASCII_11X16 (Some EPD_FontUTF8_16x16) BLACK WHITE]).
Proof.
  apply (title_buf_never_overflows 65535 255 []).
  - unfold in_uint16. lia.
  - unfold in_uint8. lia.
Defined.

(** X9: the page highlights the day of the decomposed time and nothing
    else: its log holds one filled rectangle and one white-on-black text
    when [tm_mday] is a day of the month, and none when it is 0 or beyond
    the last day. *)
Theorem draw_calendar_page_highlight
    (is_leap : Z -> Z) (day_of_week_get : Z -> Z -> Z -> Z)
    (transformTime : Z -> tm_t) (YEAR0 : Z) (fuel : nat) (unix_time : Z) :
  tm_in_range (transformTime unix_time) ->
  is_boolean (is_leap (wrap16 (tm_year (transformTime unix_time) + YEAR0))) ->
  (31 < fuel)%nat ->
  exists n cmds,
    get_days_in_month is_leap
      (wrap16 (tm_year (transformTime unix_time) + YEAR0))
      (wrap8 (tm_mon (transformTime unix_time) + 1)) = Some n /\
    emits (draw_calendar_page is_leap day_of_week_get transformTime YEAR0
             fuel unix_time) tt cmds /\
    let today := wrap8 (tm_mday (transformTime unix_time)) in
    count is_highlight_rect cmds =
      (if (1 <=? today) && (today <=? n) then 1%nat else 0%nat) /\
    count is_inverted_text cmds =
      (if (1 <=? today) && (today <=? n) then 1%nat else 0%nat).
Proof.
  intros (Hmon & Hh & Hmin) Hl Hfuel.
  set (tm := transformTime unix_time) in *.
  set (year := wrap16 (tm_year tm + YEAR0)) in *.
  set (month := wrap8 (tm_mon tm + 1)).
  assert (month = tm_mon tm + 1) as Emonth
    by (unfold month; apply wrap8_small; lia).
  destruct (get_days_in_month_defined is_leap year month Hl ltac:(lia))
    as [n Hn].
  pose proof (get_days_in_month_range _ _ _ _ Hn) as [_ Hr].
  exists n. eexists. split; [exact Hn|]. split.
  { apply (draw_calendar_page_emits is_leap day_of_week_get transformTime
             YEAR0 fuel unix_time n); assumption. }
  fold tm. fold year. fold month.
  set (today := wrap8 (tm_mday tm)).
  set (first := get_first_day_of_month day_of_week_get year month).
  pose proof (count_dates_draws is_highlight_rect 1 0 today first
                (count_highlight_rect_body today) (Z.to_nat n)
                ltac:(lia)) as Hrect.
  pose proof (count_dates_draws is_inverted_text 1 0 today first
                (count_inverted_text_body today) (Z.to_nat n)
                ltac:(lia)) as Hinv.
  rewrite Z2Nat.id in Hrect, Hinv by lia.
  cbv zeta.
  change (Paint_Clear WHITE :: title_draw year month ::
          header_draws 8 ++ grid_draws ++ dates_draws today first n ++
          [footer_draw (tm_hour tm) (tm_min tm)])
    with ([Paint_Clear WHITE; title_draw year month] ++
          header_draws 8 ++ grid_draws ++ dates_draws today first n ++
          [footer_draw (tm_hour tm) (tm_min tm)]).
  rewrite !count_app, Hrect, Hinv.
  split.
  - change (count is_highlight_rect [Paint_Clear WHITE; title_draw year month])
      with 0%nat.
    change (count is_highlight_rect (header_draws 8)) with 0%nat.
    change (count is_highlight_rect grid_draws) with 0%nat.
    change (count is_highlight_rect [footer_draw (tm_hour tm) (tm_min tm)])
      with 0%nat.
    destruct ((1 <=? today) && (today <=? n)); reflexivity.
  - change (count is_inverted_text [Paint_Clear WHITE; title_draw year month])
      with 0%nat.
    change (count is_inverted_text (header_draws 8)) with 0%nat.
    change (count is_inverted_text grid_draws) with 0%nat.
    change (count is_inverted_text [footer_draw (tm_hour tm) (tm_min tm)])
      with 0%nat.
    destruct ((1 <=? today) && (today <=? n)); reflexivity.
Qed.

Lemma draw_calendar_page_highlight_witness :
  exists n cmds,
    get_days_in_month gregorian_flag
      (wrap16 (tm_year (fixed_time 0) + 1970))
      (wrap8 (tm_mon (fixed_time 0) + 1)) = Some n /\
    emits (draw_calendar_page gregorian_flag sakamoto fixed_time 1970 32 0)
          tt cmds /\
    let today := wrap8 (tm_mday (fixed_time 0)) in
    count is_highlight_rect cmds =
      (if (1 <=? today) && (today <=? n) then 1%nat else 0%nat) /\
    count is_inverted_text cmds =
      (if (1 <=? today) && (today <=? n) then 1%nat else 0%nat).
Proof.
  apply (draw_calendar_page_highlight gregorian_flag sakamoto fixed_time
           1970 32 0).
  - unfold tm_in_range, fixed_time. cbn. lia.
  - right. reflexivity.
  - lia.
Defined.

(** X10: the grid is a closed lattice: every horizontal line meets every
    vertical line, the horizontal lines run from the first to the last
    vertical line and the vertical lines from the first to the last
    horizontal line. *)
Theorem draw_calendar_grid_lattice (fuel : nat) :
  (8 < fuel)%nat ->
  exists hs vs,
    emits (draw_calendar_grid fuel) tt (hs ++ vs) /\
    List.length hs = 7%nat /\ List.length vs = 8%nat /\
    Forall (fun h => Forall (crosses h) vs) hs /\
    Forall (fun h => exists y,
              cmd_points h = [(column_edge 0, y); (column_edge 7, y)]) hs /\
    Forall (fun v => exists x,
              cmd_points v = [(x, row_edge 0); (x, row_edge 6)]) vs.
Proof.
  intros Hfuel.
  exists (map horizontal_line (seq 0 7)), (map vertical_line (seq 0 8)).
  split; [now apply draw_calendar_grid_emits|].
  split; [reflexivity|]. split; [reflexivity|].
  split; [|split].
  - cbv [map seq horizontal_line vertical_line Layout.x_start Layout.y_start
           Layout.cell_width Layout.cell_height].
    repeat first [apply Forall_nil | apply Forall_cons];
      cbn [crosses]; lia.
  - cbn [map seq].
    repeat first [apply Forall_nil | apply Forall_cons];
      eexists; reflexivity.
  - cbn [map seq].
    repeat first [apply Forall_nil | apply Forall_cons];
      eexists; reflexivity.
Qed.

Lemma draw_calendar_grid_lattice_witness :
  exists hs vs,
    emits (draw_calendar_grid 9) tt (hs ++ vs) /\
    List.length hs = 7%nat /\ List.length vs = 8%nat /\
    Forall (fun h => Forall (crosses h) vs) hs /\
    Forall (fun h => exists y,
              cmd_points h = [(column_edge 0, y); (column_edge 7, y)]) hs /\
    Forall (fun v => exists x,
              cmd_points v = [(x, row_edge 0); (x, row_edge 6)]) vs.
Proof. apply (draw_calendar_grid_lattice 9). lia. Defined.

Lemma ys_app l1 l2 : ys (l1 ++ l2) = ys l1 ++ ys l2.
Proof. unfold ys, points. now rewrite flat_map_app, map_app. Qed.

Lemma Forall_ys (P : Z -> Prop) {A} (f : A -> list draw_cmd) l :
  (forall x, In x l -> Forall P (ys (f x))) ->
  Forall P (ys (flat_map f l)).
Proof.
  intros H. induction l as [|x xs IH]; [constructor|].
  cbn [flat_map]. rewrite ys_app. apply Forall_app.
  split; [apply H; now left|].
  apply IH. intros y Hy. apply H. now right.
Qed.

(** X11: the page is laid out from top to bottom: in the order of the log,
    the title is at y = 2, the seven weekday labels at y = 25, the fifteen
    grid lines within y = 40..112, every date draw strictly inside
    y = 40..112 (with the 1st on a weekday in 0..6), and the footer at
    y = 115. *)
Theorem draw_calendar_page_bands
    (is_leap : Z -> Z) (day_of_week_get : Z -> Z -> Z -> Z)
    (transformTime : Z -> tm_t) (YEAR0 : Z) (fuel : nat) (unix_time : Z) :
  tm_in_range (transformTime unix_time) ->
  is_boolean (is_leap (wrap16 (tm_year (transformTime unix_time) + YEAR0))) ->
  0 <= get_first_day_of_month day_of_week_get
         (wrap16 (tm_year (transformTime unix_time) + YEAR0))
         (wrap8 (tm_mon (transformTime unix_time) + 1)) <= 6 ->
  (31 < fuel)%nat ->
  exists title header grid dates footer,
    emits (draw_calendar_page is_leap day_of_week_get transformTime YEAR0
             fuel unix_time) tt
      ([Paint_Clear WHITE] ++ title ++ header ++ grid ++ dates ++ footer) /\
    List.length title = 1%nat /\ List.length header = 7%nat /\
    List.length grid = 15%nat /\ List.length footer = 1%nat /\
    Forall (fun y => y = 2) (ys title) /\
    Forall (fun y => y = 25) (ys header) /\
    Forall (fun y => 40 <= y <= 112) (ys grid) /\
    Forall (fun y => 40 < y < 112) (ys dates) /\
    Forall (fun y => y = 115) (ys footer).
Proof.
  intros (Hmon & Hh & Hmin) Hl Hf Hfuel.
  set (tm := transformTime unix_time) in *.
  set (year := wrap16 (tm_year tm + YEAR0)) in *.
  set (month := wrap8 (tm_mon tm + 1)) in *.
  assert (month = tm_mon tm + 1) as Emonth
    by (unfold month; apply wrap8_small; lia).
  destruct (get_days_in_month_defined is_leap year month Hl ltac:(lia))
    as [n Hn].
  pose proof (get_days_in_month_range _ _ _ _ Hn) as [_ Hr].
  set (first := get_first_day_of_month day_of_week_get year month) in *.
  exists [title_draw year month], (header_draws 8), grid_draws,
    (dates_draws (wrap8 (tm_mday tm)) first n),
    [footer_draw (tm_hour tm) (tm_min tm)].
  split.
  { apply (draw_calendar_page_emits is_leap day_of_week_get transformTime
             YEAR0 fuel unix_time n); assumption. }
  do 4 (split; [reflexivity|]).
  split; [repeat constructor|].
  split; [cbv [header_draws ys points]; cbn; repeat constructor|].
  split.
  { cbv [grid_draws ys points]. cbn. repeat constructor; now cbv. }
  split; [|repeat constructor].
  rewrite dates_draws_exact by lia.
  apply (Forall_ys (fun y => 40 < y < 112)).
  intros d Hd. apply in_days in Hd.
  pose proof (grid_cell_bounds first d Hf ltac:(lia)) as [Hrow Hcol].
  unfold cell_draws, ys, points, Layout.x_start, Layout.y_start,
    Layout.cell_width, Layout.cell_height.
  cbv zeta.
  destruct (d =? wrap8 (tm_mday tm));
    cbn [flat_map cmd_points app map snd];
    repeat (apply Forall_cons; [lia|]); apply Forall_nil.
Qed.

Lemma draw_calendar_page_bands_witness :
  exists title header grid dates footer,
    emits (draw_calendar_page gregorian_flag sakamoto fixed_time 1970 32 0) tt
      ([Paint_Clear WHITE] ++ title ++ header ++ grid ++ dates ++ footer) /\
    List.length title = 1%nat /\ List.length header = 7%nat /\
    List.length grid = 15%nat /\ List.length footer = 1%nat /\
    Forall (fun y => y = 2) (ys title) /\
    Forall (fun y => y = 25) (ys header) /\
    Forall (fun y => 40 <= y <= 112) (ys grid) /\
    Forall (fun y => 40 < y < 112) (ys dates) /\
    Forall (fun y => y = 115) (ys footer).
Proof.
  apply (draw_calendar_page_bands gregorian_flag sakamoto fixed_time 1970 32 0).
  - unfold tm_in_range, fixed_time. cbn. lia.
  - right. reflexivity.
  - vm_compute. split; discriminate.
  - lia.
Defined.
